(** * AI Career Chatbot: the retrieval-augmented chat core, embedded in Rocq

    The development follows the two Python modules of the repository:
    [utils.py] (JSON persistence) and [app.py] (the [CareerChatbotRAG]
    class and the Streamlit handlers that mutate the session state).

    Python objects are modelled by what the code does with them:
    - a [str] is a list of Unicode code points, so that [len] and slicing
      count characters and not bytes;
    - a [dict] is a finite map ([gmap]);
    - code that raises is a computation in a state-and-exception monad in
      which a mutation made before a [raise] stays visible afterwards;
    - the libraries the code calls (json, LangChain, Chroma, Groq) are the
      fields of records of external collaborators, and every call site may
      see them fail. *)

From Stdlib Require Import ZArith NArith QArith List String Ascii Bool Lia DecimalString.
From stdpp Require Import base option list gmap.
From stdpp Require Import sorting.

#[local] Set Warnings "-register-all".
#[local] Open Scope N_scope.

(** ** Python strings *)

Abbreviation pystr := (list N).

(** An ASCII literal of the source as a Python string. *)
Definition py (s : string) : pystr := N_of_ascii <$> list_ascii_of_string s.
Arguments py s : simpl never.

Definition newline : pystr := [10].

(** [bool(s)] of a string: the empty string is falsy. *)
Definition truthy (s : pystr) : bool :=
  match s with [] => false | _ :: _ => true end.

(** [s.endswith(suffix)] *)
Definition endswith (s suffix : pystr) : bool := bool_decide (suffix `suffix_of` s).

(** [sep.join(parts)] *)
Fixpoint join (sep : pystr) (parts : list pystr) : pystr :=
  match parts with
  | [] => []
  | [p] => p
  | p :: rest => p ++ sep ++ join sep rest
  end.

(** ** Exceptions

    [except Exception] catches the instances of [Exception]; a bare
    [except:] also catches what derives from [BaseException] only
    (KeyboardInterrupt, SystemExit, Streamlit's script-control signals). *)

Inductive exn :=
| Exception (class : string) (msg : pystr)
| BaseException (class : string) (msg : pystr).

(** [str(e)] *)
Definition str_exn (e : exn) : pystr :=
  match e with Exception _ msg | BaseException _ msg => msg end.

(** [isinstance(e, Exception)] *)
Definition isinstance_Exception (e : exn) : bool :=
  match e with Exception _ _ => true | BaseException _ _ => false end.

(** ** Computations that may raise *)

Inductive result (A : Type) :=
| Ok (a : A)
| Raise (e : exn).
Arguments Ok {A} a.
Arguments Raise {A} e.

#[export] Instance result_ret : MRet result := λ A a, Ok a.
#[export] Instance result_bind : MBind result := λ A B f r,
  match r with Ok a => f a | Raise e => Raise e end.
#[export] Instance result_fmap : FMap result := λ A B f r,
  match r with Ok a => Ok (f a) | Raise e => Raise e end.

(** [try: body  except <catches>: handler] without state. *)
Definition try_result {A} (body : result A) (catches : exn → bool)
    (handler : exn → result A) : result A :=
  match body with
  | Ok a => Ok a
  | Raise e => if catches e then handler e else Raise e
  end.

(** A computation over a mutable store [S]: the store that comes back with
    [Raise] holds every mutation made before the exception. *)
Definition M (S A : Type) : Type := S → result A * S.

#[export] Instance M_ret {S} : MRet (M S) := λ A a s, (Ok a, s).
#[export] Instance M_bind {S} : MBind (M S) := λ A B f m s,
  match m s with
  | (Ok a, s') => f a s'
  | (Raise e, s') => (Raise e, s')
  end.

Definition raise {S A} (e : exn) : M S A := λ s, (Raise e, s).
Definition get {S} : M S S := λ s, (Ok s, s).
Definition put {S} (s : S) : M S () := λ _, (Ok (), s).
Definition lift {S A} (r : result A) : M S A := λ s, (r, s).

(** [try: body  except <catches> as e: handler e] *)
Definition try_except {S A} (body : M S A) (catches : exn → bool)
    (handler : exn → M S A) : M S A := λ s,
  match body s with
  | (Ok a, s') => (Ok a, s')
  | (Raise e, s') => if catches e then handler e s' else (Raise e, s')
  end.

(** The two kinds of [except] clause of the source. *)
Definition except_all : exn → bool := λ _, true.
Definition except_Exception : exn → bool := isinstance_Exception.

(** ** Values that travel through [json]

    [PyDict] is a finite map: two dicts are equal in Python when they hold
    the same items, whatever the insertion order.  [PyObject] stands for
    any value the [json] module cannot serialise (a set, a Document). *)

Inductive pyval :=
| PyNone
| PyBool (b : bool)
| PyInt (z : Z)
| PyStr (s : pystr)
| PyList (l : list pyval)
| PyDict (d : gmap pystr pyval)
| PyObject (class : string).

(** ** The file system seen by [open], [os.path.exists] and [os.listdir] *)

Inductive node :=
| Dir (entries : list pystr)
| File (readable writable : bool) (content : pystr).

(** [creatable] tells whether a new file can be created (the directory is
    writable and the disk is not full). *)
Record filesystem := {
  nodes : gmap pystr node;
  creatable : bool
}.

Definition set_node (path : pystr) (n : node) (fs : filesystem) : filesystem :=
  {| nodes := <[path := n]> (nodes fs); creatable := creatable fs |}.

(** [os.path.exists(path)] *)
Definition os_path_exists (path : pystr) : M filesystem bool :=
  fs ← get; mret (bool_decide (is_Some (nodes fs !! path))).

(** [os.listdir(path)] *)
Definition os_listdir (fs : filesystem) (path : pystr) : result (list pystr) :=
  match nodes fs !! path with
  | Some (Dir entries) => Ok entries
  | Some (File _ _ _) => Raise (Exception "NotADirectoryError" path)
  | None => Raise (Exception "FileNotFoundError" path)
  end.

(** [os.path.join(a, b)] *)
Definition os_path_join (a b : pystr) : pystr :=
  match b with
  | 47 :: _ => b
  | _ => if bool_decide (a = []) || endswith a (py "/") then a ++ b
         else a ++ py "/" ++ b
  end.

(** [open(path, "r")] followed by reading the whole file. *)
Definition open_r (path : pystr) : M filesystem pystr :=
  fs ← get;
  match nodes fs !! path with
  | Some (File true _ content) => mret content
  | Some (File false _ _) => raise (Exception "PermissionError" path)
  | Some (Dir _) => raise (Exception "IsADirectoryError" path)
  | None => raise (Exception "FileNotFoundError" path)
  end.

(** [open(path, "w")]: creates the file or truncates it. *)
Definition open_w (path : pystr) : M filesystem () :=
  fs ← get;
  match nodes fs !! path with
  | Some (File r true _) => put (set_node path (File r true []) fs)
  | Some (File _ false _) => raise (Exception "PermissionError" path)
  | Some (Dir _) => raise (Exception "IsADirectoryError" path)
  | None =>
      if creatable fs then put (set_node path (File true true []) fs)
      else raise (Exception "PermissionError" path)
  end.

(** [f.write(text)] on the file opened at [path]. *)
Definition write (path text : pystr) : M filesystem () :=
  fs ← get;
  match nodes fs !! path with
  | Some (File r w content) => put (set_node path (File r w (content ++ text)) fs)
  | _ => raise (Exception "ValueError" (py "I/O operation on closed file."))
  end.

(** ** The [json] module

    [json_dump data indent] is the text [json.dump] writes and, when the
    data is not serialisable, the exception it raises after writing that
    much.  [json_load text] is [json.load] on a file holding [text]. *)

Record JSON := {
  json_dump : pyval → nat → pystr * option exn;
  json_load : pystr → result pyval
}.

(** * utils.py *)

(** [[
def save_json(path, data):
    with open(path, "w") as f:
        json.dump(data, f, indent=4)
]] *)
Definition save_json (J : JSON) (path : pystr) (data : pyval) : M filesystem () :=
  open_w path;;
  let '(text, failure) := json_dump J data 4 in
  write path text;;
  match failure with
  | Some e => raise e
  | None => mret ()
  end.

(** [[
def load_json(path, default):
    if os.path.exists(path):
        try:
            with open(path, "r") as f:
                return json.load(f)
        except:
            return default
    return default
]] *)
Definition load_json (J : JSON) (path : pystr) (default : pyval) : M filesystem pyval :=
  found ← os_path_exists path;
  if (found : bool) then
    try_except (text ← open_r path; lift (json_load J text))
      except_all
      (λ _, mret default)
  else mret default.

(** * app.py: the retrieval-augmented chat core *)

Definition HISTORY_PATH : pystr := py "chat_store.json".
Definition PROFILE_PATH : pystr := py ".profile_store.json".
Definition ENV_PATH : pystr := py ".env".

(** ** Documents, the vector store and the chat model *)

Record Document := {
  page_content : pystr;
  metadata : gmap pystr pystr
}.

Record HuggingFaceEmbeddings := {
  emb_model_name : pystr;
  emb_device : pystr
}.

(** A Chroma collection holds the chunks it was built from; the embedding
    of a chunk is a function of its text and is not stored apart. *)
Record Chroma := {
  collection : list Document
}.

Record ChatGroq := {
  groq_api_key : pystr;
  model_name : pystr;
  temperature : Q
}.

Inductive lc_message :=
| SystemMessage (content : pystr)
| HumanMessage (content : pystr)
| AIMessage (content : pystr).

(** A stored chat message is a dict with string values. *)
Abbreviation message := (gmap pystr pystr).

(** What ingestion asks of its libraries.  A constructor or a loader may
    raise; [*_failure] fields give the exception, if any. *)
Record Ingestion := {
  embeddings_failure : option exn;
  chroma_open : pystr → HuggingFaceEmbeddings → result Chroma;
  pdf_load : pystr → result (list Document);
  text_load : pystr → result (list Document);
  split_text : nat → nat → pystr → list pystr;
  chroma_build_failure : list Document → HuggingFaceEmbeddings → pystr → option exn;
  chroma_persist_failure : Chroma → option exn
}.

(** What a chat turn asks of its providers. *)
Record Provider := {
  groq_failure : pystr → option exn;
  similarity_search : Chroma → pystr → nat → result (list Document);
  llm_invoke : ChatGroq → list lc_message → result pystr
}.

(** ** class CareerChatbotRAG *)

Record CareerChatbotRAG := {
  persist_directory : pystr;
  knowledge_base_path : pystr;
  embeddings : HuggingFaceEmbeddings;
  vector_store : option Chroma;
  llm : option ChatGroq
}.

Definition set_vector_store (db : Chroma) (self : CareerChatbotRAG) : CareerChatbotRAG :=
  {| persist_directory := persist_directory self;
     knowledge_base_path := knowledge_base_path self;
     embeddings := embeddings self;
     vector_store := Some db;
     llm := llm self |}.

Definition set_llm (c : ChatGroq) (self : CareerChatbotRAG) : CareerChatbotRAG :=
  {| persist_directory := persist_directory self;
     knowledge_base_path := knowledge_base_path self;
     embeddings := embeddings self;
     vector_store := vector_store self;
     llm := Some c |}.

(** [[
def __init__(self, persist_directory="./vector_store", knowledge_base_path="./knowledge_base"):
    ...
    self.embeddings = HuggingFaceEmbeddings(model_name="all-MiniLM-L6-v2", model_kwargs={'device': 'cpu'})
    self.vector_store = None
    self.llm = None
]] *)
Definition __init__ (I : Ingestion) (persist_directory knowledge_base_path : pystr)
  : result CareerChatbotRAG :=
  emb ← match embeddings_failure I with
        | Some e => Raise e
        | None => Ok {| emb_model_name := py "all-MiniLM-L6-v2"; emb_device := py "cpu" |}
        end;
  Ok {| persist_directory := persist_directory;
        knowledge_base_path := knowledge_base_path;
        embeddings := emb;
        vector_store := None;
        llm := None |}.

Definition default_persist_directory : pystr := py "./vector_store".
Definition default_knowledge_base_path : pystr := py "./knowledge_base".

(** One pass of the loop body over a file of the knowledge base:
    [[
    if file.endswith(".pdf"):   documents.extend(PyPDFLoader(file_path).load())
    elif file.endswith(".txt"): documents.extend(TextLoader(file_path).load())
    ]] *)
Definition load_file (I : Ingestion) (file file_path : pystr) : result (list Document) :=
  if endswith file (py ".pdf") then pdf_load I file_path
  else if endswith file (py ".txt") then text_load I file_path
  else Ok [].

(** The loop over [os.listdir]; the bare [except: continue] skips a file
    whose loader raises. *)
Fixpoint load_files (I : Ingestion) (kb : pystr) (files : list pystr)
    (documents : list Document) : list Document :=
  match files with
  | [] => documents
  | file :: rest =>
      let file_path := os_path_join kb file in
      match load_file I file file_path with
      | Ok docs => load_files I kb rest (documents ++ docs)
      | Raise _ => load_files I kb rest documents
      end
  end.

(** The documents gathered before the fallback is considered. *)
Definition extract_documents (I : Ingestion) (fs : filesystem) (kb : pystr)
  : result (list Document) :=
  if bool_decide (is_Some (nodes fs !! kb)) then
    files ← os_listdir fs kb;
    Ok (load_files I kb files [])
  else Ok [].

Definition internal_source : gmap pystr pystr := {[ py "source" := py "Internal" ]}.

Definition fallback_corpus : list Document :=
  [ {| page_content := py "Data Science includes roles like Data Analyst, ML Engineer, and Research Scientist.";
       metadata := internal_source |};
    {| page_content := py "Software Engineering requires mastery of algorithms, systems design, and version control.";
       metadata := internal_source |} ].

(** [if not documents: documents = [...]] *)
Definition or_fallback (documents : list Document) : list Document :=
  match documents with
  | [] => fallback_corpus
  | _ :: _ => documents
  end.

(** [RecursiveCharacterTextSplitter(chunk_size, chunk_overlap).split_documents]:
    every chunk carries the metadata of the document it was cut from. *)
Definition split_documents (I : Ingestion) (chunk_size chunk_overlap : nat)
    (documents : list Document) : list Document :=
  d ← documents;
  (λ text, {| page_content := text; metadata := metadata d |})
    <$> split_text I chunk_size chunk_overlap (page_content d).

(** [Chroma.from_documents(documents=chunks, embedding=..., persist_directory=...)] *)
Definition Chroma_from_documents (I : Ingestion) (chunks : list Document)
    (emb : HuggingFaceEmbeddings) (dir : pystr) : result Chroma :=
  match chroma_build_failure I chunks emb dir with
  | Some e => Raise e
  | None => Ok {| collection := chunks |}
  end.

(** [db.persist()] *)
Definition persist (I : Ingestion) (db : Chroma) : result () :=
  match chroma_persist_failure I db with
  | Some e => Raise e
  | None => Ok ()
  end.

(** The document list [_create_new_db] hands to the splitter. *)
Definition documents_to_index (I : Ingestion) (fs : filesystem) (kb : pystr)
  : result (list Document) :=
  or_fallback <$> extract_documents I fs kb.

Definition _create_new_db (I : Ingestion) (fs : filesystem) (self : CareerChatbotRAG)
  : result Chroma :=
  documents ← extract_documents I fs (knowledge_base_path self);
  let documents := or_fallback documents in
  let chunks := split_documents I 1000 100 documents in
  db ← Chroma_from_documents I chunks (embeddings self) (persist_directory self);
  try_result (persist I db) except_all (λ _, Ok ());;
  Ok db.

(** [[
def load_engine(self):
    if os.path.exists(self.persist_directory):
        try:    self.vector_store = Chroma(persist_directory=..., embedding_function=...)
        except: self.vector_store = self._create_new_db()
    else:
        self.vector_store = self._create_new_db()
]] *)
Definition load_engine (I : Ingestion) (fs : filesystem) : M CareerChatbotRAG () :=
  self ← get;
  let rebuild : M CareerChatbotRAG () :=
    db ← lift (_create_new_db I fs self);
    put (set_vector_store db self) in
  if bool_decide (is_Some (nodes fs !! persist_directory self)) then
    try_except
      (db ← lift (chroma_open I (persist_directory self) (embeddings self));
       put (set_vector_store db self))
      except_all
      (λ _, rebuild)
  else rebuild.

(** ** CareerChatbotRAG.chat *)

(** [d[key]] on a dict: a missing key raises [KeyError], whose [str] is
    the [repr] of the key. *)
Definition getitem {V} (d : gmap pystr V) (key : pystr) : result V :=
  match d !! key with
  | Some v => Ok v
  | None => Raise (Exception "KeyError" (py "'" ++ key ++ py "'"))
  end.

(** [[
profile_context = f"User Profile: Skills({user_profile.get('skills', 'Unknown')}), Education({user_profile.get('education', 'Unknown')}), Interest({user_profile.get('interest', 'General')})."
]] *)
Definition profile_context (user_profile : gmap pystr pystr) : pystr :=
  py "User Profile: Skills(" ++ default (py "Unknown") (user_profile !! py "skills")
  ++ py "), Education(" ++ default (py "Unknown") (user_profile !! py "education")
  ++ py "), Interest(" ++ default (py "General") (user_profile !! py "interest")
  ++ py ").".

(** [context = "\n\n".join([d.page_content for d in docs])] *)
Definition retrieved_context (docs : list Document) : pystr :=
  join (newline ++ newline) (page_content <$> docs).

(** The sixteen blanks that indent the lines of the triple-quoted prompt. *)
Definition indent16 : pystr := py "                ".

Definition persona : pystr := py "You are a Technical AI Career Guidance Assistant. ".

Definition rules : pystr :=
  py "Rules:" ++ newline ++ indent16
  ++ py "1. Provide structured, clear, and encouraging guidance." ++ newline ++ indent16
  ++ py "2. Use professional typography: bullet points for steps and skills." ++ newline ++ indent16
  ++ py "3. Tailor recommendations specifically to the user's provided profile." ++ newline ++ indent16
  ++ py "4. Maintain a calm, neutral, and helpful tone.".

(** The f-string of the [SystemMessage]. *)
Definition system_prompt (profile_context context : pystr) : pystr :=
  persona ++ newline ++ indent16
  ++ profile_context ++ newline ++ indent16
  ++ py "Use the following context to provide professional, mentor-grade advice: "
  ++ context ++ newline ++ indent16
  ++ newline ++ indent16
  ++ rules.

(** One pass of
    [[
    for msg in history:
        role = msg.get("role")
        if role == "user":        messages.append(HumanMessage(content=msg["content"]))
        elif role == "assistant": messages.append(AIMessage(content=msg["content"]))
    ]] *)
Definition replay_message (msg : message) (messages : list lc_message)
  : result (list lc_message) :=
  let role := msg !! py "role" in
  if bool_decide (role = Some (py "user")) then
    content ← getitem msg (py "content");
    Ok (messages ++ [HumanMessage content])
  else if bool_decide (role = Some (py "assistant")) then
    content ← getitem msg (py "content");
    Ok (messages ++ [AIMessage content])
  else Ok messages.

Fixpoint replay_history (history : list message) (messages : list lc_message)
  : result (list lc_message) :=
  match history with
  | [] => Ok messages
  | msg :: rest =>
      messages ← replay_message msg messages;
      replay_history rest messages
  end.

(** The message list handed to [self.llm.invoke]. *)
Definition assemble_messages (user_profile : gmap pystr pystr) (docs : list Document)
    (history : list message) (user_query : pystr) : result (list lc_message) :=
  let context := retrieved_context docs in
  let messages := [SystemMessage (system_prompt (profile_context user_profile) context)] in
  messages ← replay_history history messages;
  Ok (messages ++ [HumanMessage user_query]).

(** [ChatGroq(groq_api_key=api_key, model_name="llama-3.1-8b-instant", temperature=0.5)] *)
Definition ChatGroq_new (P : Provider) (api_key : pystr) : result ChatGroq :=
  match groq_failure P api_key with
  | Some e => Raise e
  | None => Ok {| groq_api_key := api_key;
                  model_name := py "llama-3.1-8b-instant";
                  temperature := (1 # 2)%Q |}
  end.

(** [if not self.llm: self.llm = ChatGroq(...)] *)
Definition ensure_llm (P : Provider) (api_key : pystr) : M CareerChatbotRAG ChatGroq :=
  self ← get;
  match llm self with
  | Some client => mret client
  | None =>
      client ← lift (ChatGroq_new P api_key);
      put (set_llm client self);;
      mret client
  end.

(** [self.vector_store.similarity_search(user_query, k=3)]: on [None] the
    attribute lookup raises. *)
Definition retrieve (P : Provider) (user_query : pystr) : M CareerChatbotRAG (list Document) :=
  self ← get;
  match vector_store self with
  | Some db => lift (similarity_search P db user_query 3%nat)
  | None => raise (Exception "AttributeError"
                     (py "'NoneType' object has no attribute 'similarity_search'"))
  end.

(** The body of the [try] block of [chat]. *)
Definition chat_body (P : Provider) (user_query : pystr) (history : list message)
    (api_key : pystr) (user_profile : gmap pystr pystr)
  : M CareerChatbotRAG (pystr * list Document) :=
  client ← ensure_llm P api_key;
  docs ← retrieve P user_query;
  messages ← lift (assemble_messages user_profile docs history user_query);
  response ← lift (llm_invoke P client messages);
  mret (response, docs).

(** The prefix of [f"❌ System Error: {str(e)}"]; the cross mark is U+274C. *)
Definition error_prefix : pystr := [10060] ++ py " System Error: ".

(** [[
def chat(self, user_query, history, api_key, user_profile):
    try:
        ...
        return response.content, docs
    except Exception as e:
        return f"❌ System Error: {str(e)}", []
]] *)
Definition chat (P : Provider) (user_query : pystr) (history : list message)
    (api_key : pystr) (user_profile : gmap pystr pystr)
  : M CareerChatbotRAG (pystr * list Document) :=
  try_except (chat_body P user_query history api_key user_profile)
    except_Exception
    (λ e, mret (error_prefix ++ str_exn e, [])).

(** * app.py: the session state and the handlers of the page *)

Record session := {
  s_name : pystr;
  s_messages : list message;
  s_time : pystr
}.

(** [st.session_state.history]: [{"sessions": {...}, "active_id": id | None}] *)
Record history_store := {
  sessions : gmap pystr session;
  active_id : option pystr
}.

Record session_state := {
  history : history_store;
  profile : gmap pystr pystr;
  rag : CareerChatbotRAG
}.

(** What a handler can read and change: the session state and the disk. *)
Record world := {
  state : session_state;
  disk : filesystem
}.

Definition set_history (h : history_store) (w : world) : world :=
  {| state := {| history := h; profile := profile (state w); rag := rag (state w) |};
     disk := disk w |}.

Definition set_profile (p : gmap pystr pystr) (w : world) : world :=
  {| state := {| history := history (state w); profile := p; rag := rag (state w) |};
     disk := disk w |}.

Definition set_rag (r : CareerChatbotRAG) (w : world) : world :=
  {| state := {| history := history (state w); profile := profile (state w); rag := r |};
     disk := disk w |}.

Definition set_disk (fs : filesystem) (w : world) : world :=
  {| state := state w; disk := fs |}.

(** Run a file operation on the disk of the world. *)
Definition on_disk {A} (m : M filesystem A) : M world A := λ w,
  let '(r, fs) := m (disk w) in (r, set_disk fs w).

(** Run a method of [st.session_state.rag]. *)
Definition on_rag {A} (m : M CareerChatbotRAG A) : M world A := λ w,
  let '(r, self) := m (rag (state w)) in (r, set_rag self w).

(** [st.rerun()] stops the script with Streamlit's control signal, which
    derives from [BaseException]. *)
Definition rerun_signal : exn := BaseException "RerunException" [].
Definition st_rerun {A} : M world A := raise rerun_signal.

(** ** The structures as [json.dump] receives them *)

Definition profile_to_py (p : gmap pystr pystr) : pyval := PyDict (PyStr <$> p).

Definition message_to_py (m : message) : pyval := PyDict (PyStr <$> m).

Definition session_to_py (s : session) : pyval :=
  PyDict (<[py "name" := PyStr (s_name s)]>
         (<[py "messages" := PyList (message_to_py <$> s_messages s)]>
         (<[py "time" := PyStr (s_time s)]> ∅))).

Definition history_to_py (h : history_store) : pyval :=
  PyDict (<[py "sessions" := PyDict (session_to_py <$> sessions h)]>
         (<[py "active_id" := from_option PyStr PyNone (active_id h)]> ∅)).

(** ** [str(uuid.uuid4())]: 32 lower-case hex digits in groups 8-4-4-4-12 *)

Definition hex_digit (d : N) : N := if d <? 10 then 48 + d else 87 + d.

Definition nibble (u : N) (i : nat) : N := N.land (N.shiftr u (4 * N.of_nat i)) 15.

Definition hex32 (u : N) : pystr := (λ i, hex_digit (nibble u i)) <$> rev (seq 0 32).

Definition uuid_str (u : N) : pystr :=
  let hex := hex32 u in
  take 8 hex ++ py "-" ++ take 4 (drop 8 hex) ++ py "-" ++ take 4 (drop 12 hex)
  ++ py "-" ++ take 4 (drop 16 hex) ++ py "-" ++ drop 20 hex.

(** ** Sessions *)

(** [{"name": "Career Planning", "messages": [], "time": timestamp}] *)
Definition new_session (timestamp : pystr) : session :=
  {| s_name := py "Career Planning"; s_messages := []; s_time := timestamp |}.

(** The two assignments that install a fresh session and make it active. *)
Definition with_new_session (new_id timestamp : pystr) (h : history_store) : history_store :=
  {| sessions := <[new_id := new_session timestamp]> (sessions h);
     active_id := Some new_id |}.

(** [[
active_id and active_id in st.session_state.history["sessions"] and \
    not st.session_state.history["sessions"][active_id]["messages"]
]] *)
Definition active_chat_is_empty (h : history_store) : bool :=
  match active_id h with
  | Some a =>
      truthy a &&
      match sessions h !! a with
      | Some s => bool_decide (s_messages s = [])
      | None => false
      end
  | None => false
  end.

(** The handler of the "New Conversation" button; [uuid4] and [now] are
    what [uuid.uuid4()] and [datetime.datetime.now()] return. *)
Definition new_conversation (J : JSON) (uuid4 : N) (now : pystr) : M world () :=
  w ← get;
  let h := history (state w) in
  (if active_chat_is_empty h then mret ()
   else
     let new_id := uuid_str uuid4 in
     let timestamp := now in
     put (set_history (with_new_session new_id timestamp h) w);;
     w ← get;
     on_disk (save_json J HISTORY_PATH (history_to_py (history (state w)))));;
  st_rerun.

(** [[
if not st.session_state.history.get("active_id") or \
   st.session_state.history["active_id"] not in st.session_state.history["sessions"]:
]] *)
Definition needs_active_session (h : history_store) : bool :=
  match active_id h with
  | Some a => negb (truthy a) || bool_decide (sessions h !! a = None)
  | None => true
  end.

(** "Ensure an active session exists" *)
Definition ensure_active_session (uuid4 : N) (now : pystr) : M world () :=
  w ← get;
  let h := history (state w) in
  if needs_active_session h then
    put (set_history (with_new_session (uuid_str uuid4) now h) w)
  else mret ().

(** ** The profile *)

(** [{"skills": "", "education": "Student", "interest": ""}] *)
Definition default_profile : gmap pystr pystr :=
  <[py "skills" := []]> (<[py "education" := py "Student"]> (<[py "interest" := []]> ∅)).

(** The handler of "Save Profile". *)
Definition save_profile (J : JSON) (skills edu interest : pystr) : M world () :=
  w ← get;
  put (set_profile (<[py "skills" := skills]> (<[py "education" := edu]>
                   (<[py "interest" := interest]> ∅))) w);;
  w ← get;
  on_disk (save_json J PROFILE_PATH (profile_to_py (profile (state w)))).

(** The handler of "Reset":
    [[
    st.session_state.profile = {"skills": "", "education": "Student", "interest": ""}
    save_json(PROFILE_PATH, st.session_state.profile)
    st.rerun()
    ]] *)
Definition reset_profile (J : JSON) : M world () :=
  w ← get;
  put (set_profile default_profile w);;
  w ← get;
  on_disk (save_json J PROFILE_PATH (profile_to_py (profile (state w))));;
  st_rerun.

(** ** The chat input *)

(** [prompt[:30] + "..." if len(prompt) > 30 else prompt] *)
Definition auto_name (prompt : pystr) : pystr :=
  if bool_decide (30 < length prompt)%nat then take 30 prompt ++ py "..." else prompt.

(** [{"role": role, "content": content, "time": now_time}] *)
Definition chat_message (role content now_time : pystr) : message :=
  <[py "role" := role]> (<[py "content" := content]> (<[py "time" := now_time]> ∅)).

(** [l[:-1]] *)
Definition all_but_last {A} (l : list A) : list A := take (length l - 1) l.

(** [session_data] is the dict stored under the active id: a mutation of
    it is a mutation of the history.  [session_data[...] = v] and
    [session_data["messages"].append(m)] therefore alter the session in
    place inside the store. *)
Definition alter_session (sid : pystr) (f : session → session) : M world () :=
  w ← get;
  let h := history (state w) in
  put (set_history {| sessions := alter f sid (sessions h); active_id := active_id h |} w).

Definition read_session (sid : pystr) : M world session :=
  w ← get; lift (getitem (sessions (history (state w))) sid).

Definition rename (n : pystr) (s : session) : session :=
  {| s_name := n; s_messages := s_messages s; s_time := s_time s |}.

Definition append_message (m : message) (s : session) : session :=
  {| s_name := s_name s; s_messages := s_messages s ++ [m]; s_time := s_time s |}.

Definition touch (t : pystr) (s : session) : session :=
  {| s_name := s_name s; s_messages := s_messages s; s_time := t |}.

(** The [else] branch of the chat input handler, on the session stored
    under [sid]; [api_key] is known to be truthy there. *)
Definition submit_prompt (J : JSON) (P : Provider) (sid api_key prompt : pystr)
    (now_time now_full : pystr) : M world () :=
  session_data ← read_session sid;
  (if bool_decide (s_messages session_data = []) then
     alter_session sid (rename (auto_name prompt))
   else mret ());;
  alter_session sid (append_message (chat_message (py "user") prompt now_time));;
  session_data ← read_session sid;
  w ← get;
  '(response_content, sources) ←
    on_rag (chat P prompt (all_but_last (s_messages session_data)) api_key
              (profile (state w)));
  alter_session sid
    (append_message (chat_message (py "assistant") response_content now_time));;
  alter_session sid (touch now_full);;
  w ← get;
  on_disk (save_json J HISTORY_PATH (history_to_py (history (state w)))).

(** The main interface after the sidebar: make sure a session is active,
    then handle what [st.chat_input] returned ([None] when nothing was
    submitted).  [fresh] and [now0] feed the session created on demand. *)
Definition main_interface (J : JSON) (P : Provider) (api_key : option pystr)
    (fresh : N) (now0 : pystr) (chat_input : option pystr)
    (now_time now_full : pystr) : M world () :=
  ensure_active_session fresh now0;;
  w ← get;
  match active_id (history (state w)) with
  | None => raise (Exception "KeyError" (py "None"))
  | Some sid =>
      read_session sid;;
      match chat_input with
      | Some prompt =>
          if truthy prompt then
            match api_key with
            | Some key => if truthy key then submit_prompt J P sid key prompt now_time now_full
                          else mret ()
            | None => mret ()
            end
          else mret ()
      | None => mret ()
      end
  end.

(** * A reference instance of the [json] interface

    A printer and a parser for the JSON text Python writes with
    [indent=4] and reads back, used to run the statements below on
    concrete files.  Non-ASCII characters are written as [\uXXXX]
    (surrogate pairs above U+FFFF), as [ensure_ascii=True] does. *)

Module RefJson.

Definition quote : N := 34.
Definition backslash : N := 92.

Definition hex4 (n : N) : pystr := (λ i, hex_digit (nibble n i)) <$> [3; 2; 1; 0]%nat.

Definition escape_char (c : N) : pystr :=
  if c =? quote then [backslash; quote]
  else if c =? backslash then [backslash; backslash]
  else if c =? 10 then backslash :: py "n"
  else if c =? 13 then backslash :: py "r"
  else if c =? 9 then backslash :: py "t"
  else if c =? 8 then backslash :: py "b"
  else if c =? 12 then backslash :: py "f"
  else if (32 <=? c) && (c <=? 126) then [c]
  else if c <? 65536 then backslash :: py "u" ++ hex4 c
  else let c' := c - 65536 in
       backslash :: py "u" ++ hex4 (N.lor 55296 (N.shiftr c' 10))
       ++ backslash :: py "u" ++ hex4 (N.lor 56320 (N.land c' 1023)).

Definition dump_str (s : pystr) : pystr :=
  [quote] ++ (c ← s; escape_char c) ++ [quote].

Definition dump_int (z : Z) : pystr := py (NilZero.string_of_int (Z.to_int z)).

(** Texts written one after the other; writing stops at the first failure. *)
Fixpoint emit_items (sep : pystr) (items : list (pystr * option exn)) : pystr * option exn :=
  match items with
  | [] => ([], None)
  | [item] => item
  | (text, Some e) :: _ => (text, Some e)
  | (text, None) :: rest =>
      let '(text', failure) := emit_items sep rest in (text ++ sep ++ text', failure)
  end.

Definition newline_indent (indent level : nat) : pystr :=
  newline ++ replicate (indent * level) 32.

Definition emit_block (opening closing : N) (indent level : nat)
    (items : list (pystr * option exn)) : pystr * option exn :=
  match items with
  | [] => ([opening; closing], None)
  | _ =>
      let '(text, failure) := emit_items (py "," ++ newline_indent indent (S level)) items in
      match failure with
      | Some e => ([opening] ++ newline_indent indent (S level) ++ text, Some e)
      | None => ([opening] ++ newline_indent indent (S level) ++ text
                 ++ newline_indent indent level ++ [closing], None)
      end
  end.

Definition emit_member (key : pystr) (value : pystr * option exn) : pystr * option exn :=
  (dump_str key ++ py ": " ++ value.1, value.2).

Fixpoint dump (indent level : nat) (v : pyval) : pystr * option exn :=
  match v with
  | PyNone => (py "null", None)
  | PyBool true => (py "true", None)
  | PyBool false => (py "false", None)
  | PyInt z => (dump_int z, None)
  | PyStr s => (dump_str s, None)
  | PyList l => emit_block 91 93 indent level (dump indent (S level) <$> l)
  | PyDict d =>
      emit_block 123 125 indent level
        (map_fold (λ key value items, emit_member key (dump indent (S level) value) :: items)
           [] d)
  | PyObject class =>
      ([], Some (Exception "TypeError"
                   (py "Object of type " ++ py class ++ py " is not JSON serializable")))
  end.

(** ** Parsing *)

Definition is_ws (c : N) : bool := (c =? 32) || (c =? 10) || (c =? 13) || (c =? 9).

Fixpoint skip_ws (s : pystr) : pystr :=
  match s with
  | c :: rest => if is_ws c then skip_ws rest else s
  | [] => []
  end.

Definition unhex (c : N) : option N :=
  if (48 <=? c) && (c <=? 57) then Some (c - 48)
  else if (97 <=? c) && (c <=? 102) then Some (c - 87)
  else if (65 <=? c) && (c <=? 70) then Some (c - 55)
  else None.

Definition unhex4 (a b c d : N) : option N :=
  a ← unhex a; b ← unhex b; c ← unhex c; d ← unhex d;
  Some (4096 * a + 256 * b + 16 * c + d).

(** A high surrogate followed by a low one is one character. *)
Fixpoint combine_surrogates (s : pystr) : pystr :=
  match s with
  | hi :: rest =>
      match rest with
      | lo :: rest' =>
          if (55296 <=? hi) && (hi <? 56320) && (56320 <=? lo) && (lo <? 57344)
          then 65536 + 1024 * (hi - 55296) + (lo - 56320) :: combine_surrogates rest'
          else hi :: combine_surrogates rest
      | [] => [hi]
      end
  | [] => []
  end.

(** The characters after an opening quote, up to the closing one. *)
Fixpoint parse_chars (s acc : pystr) : option (pystr * pystr) :=
  match s with
  | [] => None
  | c :: rest =>
      if c =? quote then Some (combine_surrogates (rev acc), rest)
      else if c =? backslash then
        match rest with
        | e :: rest' =>
            if e =? 117 then
              match rest' with
              | h1 :: h2 :: h3 :: h4 :: rest'' =>
                  match unhex4 h1 h2 h3 h4 with
                  | Some n => parse_chars rest'' (n :: acc)
                  | None => None
                  end
              | _ => None
              end
            else if e =? 110 then parse_chars rest' (10 :: acc)
            else if e =? 114 then parse_chars rest' (13 :: acc)
            else if e =? 116 then parse_chars rest' (9 :: acc)
            else if e =? 98 then parse_chars rest' (8 :: acc)
            else if e =? 102 then parse_chars rest' (12 :: acc)
            else if (e =? quote) || (e =? backslash) || (e =? 47) then parse_chars rest' (e :: acc)
            else None
        | [] => None
        end
      else if c <? 32 then None
      else parse_chars rest (c :: acc)
  end.

Definition is_digit (c : N) : bool := (48 <=? c) && (c <=? 57).

Fixpoint parse_digits (s : pystr) (acc : N) : N * pystr :=
  match s with
  | c :: rest => if is_digit c then parse_digits rest (10 * acc + (c - 48)) else (acc, s)
  | [] => (acc, [])
  end.

Definition parse_int (s : pystr) : option (pyval * pystr) :=
  match s with
  | 45 :: (d :: _) as rest =>
      if is_digit d then let '(n, rest') := parse_digits rest 0 in Some (PyInt (- Z.of_N n), rest')
      else None
  | d :: _ =>
      if is_digit d then let '(n, rest') := parse_digits s 0 in Some (PyInt (Z.of_N n), rest')
      else None
  | [] => None
  end.

Definition strip_prefix (word s : pystr) : option pystr :=
  if bool_decide (take (length word) s = word) then Some (drop (length word) s) else None.

Fixpoint parse_value (fuel : nat) (s : pystr) : option (pyval * pystr) :=
  match fuel with
  | O => None
  | S fuel =>
      let s := skip_ws s in
      match s with
      | [] => None
      | c :: rest =>
          if c =? quote then '(str, rest') ← parse_chars rest []; Some (PyStr str, rest')
          else if c =? 91 then
            match skip_ws rest with
            | 93 :: rest' => Some (PyList [], rest')
            | _ => '(items, rest') ← parse_items fuel rest []; Some (PyList items, rest')
            end
          else if c =? 123 then
            match skip_ws rest with
            | 125 :: rest' => Some (PyDict ∅, rest')
            | _ => '(d, rest') ← parse_members fuel rest ∅; Some (PyDict d, rest')
            end
          else if c =? 110 then rest' ← strip_prefix (py "null") s; Some (PyNone, rest')
          else if c =? 116 then rest' ← strip_prefix (py "true") s; Some (PyBool true, rest')
          else if c =? 102 then rest' ← strip_prefix (py "false") s; Some (PyBool false, rest')
          else parse_int s
      end
  end
with parse_items (fuel : nat) (s : pystr) (acc : list pyval) : option (list pyval * pystr) :=
  match fuel with
  | O => None
  | S fuel =>
      '(v, rest) ← parse_value fuel s;
      match skip_ws rest with
      | 44 :: rest' => parse_items fuel rest' (v :: acc)
      | 93 :: rest' => Some (rev (v :: acc), rest')
      | _ => None
      end
  end
with parse_members (fuel : nat) (s : pystr) (acc : gmap pystr pyval)
  : option (gmap pystr pyval * pystr) :=
  match fuel with
  | O => None
  | S fuel =>
      match skip_ws s with
      | 34 :: rest =>
          '(key, rest) ← parse_chars rest [];
          match skip_ws rest with
          | 58 :: rest =>
              '(v, rest) ← parse_value fuel rest;
              match skip_ws rest with
              | 44 :: rest' => parse_members fuel rest' (<[key := v]> acc)
              | 125 :: rest' => Some (<[key := v]> acc, rest')
              | _ => None
              end
          | _ => None
          end
      | _ => None
      end
  end.

Definition decode_error : exn := Exception "JSONDecodeError" (py "Expecting value").

Definition load (text : pystr) : result pyval :=
  match parse_value (2 * length text + 2) text with
  | Some (v, rest) =>
      match skip_ws rest with
      | [] => Ok v
      | _ => Raise (Exception "JSONDecodeError" (py "Extra data"))
      end
  | None => Raise decode_error
  end.

Definition json : JSON := {| json_dump := λ data indent, dump indent 0 data; json_load := load |}.

End RefJson.

(** * The remaining definitions the statements use *)

(** ** What a save leaves on the disk *)

(** [open(path, "w")] succeeds on a writable file and on a free path of a
    directory that accepts new files. *)
Definition writable_at (fs : filesystem) (path : pystr) : bool :=
  match nodes fs !! path with
  | Some (File _ w _) => w
  | Some (Dir _) => false
  | None => creatable fs
  end.

(** The file a path holds after its content was replaced by [text]. *)
Definition saved_file (fs : filesystem) (path text : pystr) : node :=
  match nodes fs !! path with
  | Some (File r _ _) => File r true text
  | _ => File true true text
  end.

(** The file can be read back: it is new, or it was readable before. *)
Definition readable_at (fs : filesystem) (path : pystr) : bool :=
  match nodes fs !! path with
  | Some (File r _ _) => r
  | Some (Dir _) => false
  | None => true
  end.

(** ** Starting the page: the "State Management" block

    [[
    st.session_state.history = load_json(HISTORY_PATH, {"sessions": {}, "active_id": None})
    st.session_state.profile = load_json(PROFILE_PATH, {"skills": "", "education": "Student", "interest": ""})
    ]] *)
Definition startup_history_default : pyval :=
  PyDict (<[py "sessions" := PyDict ∅]> (<[py "active_id" := PyNone]> ∅)).

Definition startup_profile_default : pyval :=
  PyDict (<[py "skills" := PyStr []]> (<[py "education" := PyStr (py "Student")]>
         (<[py "interest" := PyStr []]> ∅))).

Definition load_state (J : JSON) : M filesystem (pyval * pyval) :=
  h ← load_json J HISTORY_PATH startup_history_default;
  p ← load_json J PROFILE_PATH startup_profile_default;
  mret (h, p).

(** [rag = CareerChatbotRAG(); rag.load_engine()] *)
Definition start_engine (I : Ingestion) (fs : filesystem) : result CareerChatbotRAG :=
  self ← __init__ I default_persist_directory default_knowledge_base_path;
  match load_engine I fs self with
  | (Ok _, self') => Ok self'
  | (Raise e, _) => Raise e
  end.

(** ** Several chat turns on one orchestrator

    Every turn has its own provider behaviour (the network may fail in one
    turn and answer in the next) and its own arguments.  The object
    survives a turn whatever its outcome. *)
Record turn := {
  t_provider : Provider;
  t_query : pystr;
  t_history : list message;
  t_api_key : pystr;
  t_profile : gmap pystr pystr
}.

Definition chat_turn (t : turn) : M CareerChatbotRAG (pystr * list Document) :=
  chat (t_provider t) (t_query t) (t_history t) (t_api_key t) (t_profile t).

Fixpoint chat_turns (turns : list turn) (self : CareerChatbotRAG) : CareerChatbotRAG :=
  match turns with
  | [] => self
  | t :: rest => chat_turns rest (chat_turn t self).2
  end.

(** ** The steps of a chat turn, one by one *)

(** The client the turn uses: the stored one, or a new one. *)
Definition client_of (P : Provider) (self : CareerChatbotRAG) (api_key : pystr)
  : result ChatGroq :=
  match llm self with
  | Some client => Ok client
  | None => ChatGroq_new P api_key
  end.

(** The chunks the turn retrieves. *)
Definition docs_of (P : Provider) (self : CareerChatbotRAG) (user_query : pystr)
  : result (list Document) :=
  match vector_store self with
  | Some db => similarity_search P db user_query 3%nat
  | None => Raise (Exception "AttributeError"
                     (py "'NoneType' object has no attribute 'similarity_search'"))
  end.

(** The object after the client [c] was obtained: [self.llm] is assigned
    only when it was [None]. *)
Definition with_client (client : ChatGroq) (self : CareerChatbotRAG) : CareerChatbotRAG :=
  match llm self with
  | Some _ => self
  | None => set_llm client self
  end.

(** What the handler of [chat] makes of the outcome of the [try] block. *)
Definition absorbed (r : result (pystr * list Document)) : result (pystr * list Document) :=
  match r with
  | Ok answer => Ok answer
  | Raise e => if isinstance_Exception e then Ok (error_prefix ++ str_exn e, []) else Raise e
  end.

(** [step_fails ... e]: the first step of the turn that fails raises [e]. *)
Inductive step_fails (P : Provider) (self : CareerChatbotRAG) (user_query : pystr)
    (history : list message) (api_key : pystr) (user_profile : gmap pystr pystr)
  : exn → Prop :=
| client_construction_fails e :
    client_of P self api_key = Raise e →
    step_fails P self user_query history api_key user_profile e
| retrieval_fails client e :
    client_of P self api_key = Ok client →
    docs_of P self user_query = Raise e →
    step_fails P self user_query history api_key user_profile e
| history_replay_fails client docs e :
    client_of P self api_key = Ok client →
    docs_of P self user_query = Ok docs →
    assemble_messages user_profile docs history user_query = Raise e →
    step_fails P self user_query history api_key user_profile e
| model_call_fails client docs messages e :
    client_of P self api_key = Ok client →
    docs_of P self user_query = Ok docs →
    assemble_messages user_profile docs history user_query = Ok messages →
    llm_invoke P client messages = Raise e →
    step_fails P self user_query history api_key user_profile e.

(** The failures of a provider are errors (network, credential, service),
    not interruptions of the process. *)
Definition raises_Exceptions_only (P : Provider) : Prop :=
  (∀ key e, groq_failure P key = Some e → isinstance_Exception e = true) ∧
  (∀ db query k e, similarity_search P db query k = Raise e → isinstance_Exception e = true) ∧
  (∀ client messages e, llm_invoke P client messages = Raise e → isinstance_Exception e = true).

(** ** What the specification says of the assembled messages *)

(** A prior message as the model sees it: user to user, assistant to
    assistant, any other role dropped. *)
Definition role_mapped (msg : message) : option lc_message :=
  match msg !! py "role" with
  | Some role =>
      if bool_decide (role = py "user") then HumanMessage <$> msg !! py "content"
      else if bool_decide (role = py "assistant") then AIMessage <$> msg !! py "content"
      else None
  | None => None
  end.

(** A message of the data model: one that is replayed has a content. *)
Definition well_formed (msg : message) : Prop :=
  (msg !! py "role" = Some (py "user") ∨ msg !! py "role" = Some (py "assistant")) →
  is_Some (msg !! py "content").

(** [needle in haystack] *)
Definition contains (haystack needle : pystr) : Prop :=
  ∃ before after, haystack = before ++ needle ++ after.

(** ** What the statements on ingestion need *)

Definition is_space (c : N) : bool := bool_decide (c ∈ [32; 9; 10; 11; 12; 13]).

(** [text == text.strip()] *)
Definition stripped (text : pystr) : bool :=
  match text with
  | [] => true
  | c :: _ => negb (is_space c) && negb (is_space (List.last text 0))
  end.

(** What the splitter of the library does with a text that fits in one
    chunk: it is the only chunk. *)
Definition keeps_short_texts (I : Ingestion) : Prop :=
  ∀ text, text ≠ [] → (length text ≤ 1000)%nat → stripped text = true →
          split_text I 1000 100 text = [text].

(** A file of the knowledge base that contributes no document: its
    extension is not handled, or its loader raises, or it loads nothing. *)
Definition yields_nothing (I : Ingestion) (kb file : pystr) : Prop :=
  (endswith file (py ".pdf") = false ∧ endswith file (py ".txt") = false) ∨
  (∃ e, load_file I file (os_path_join kb file) = Raise e) ∨
  load_file I file (os_path_join kb file) = Ok [].

(** ** Reference collaborators, to run the statements on concrete inputs *)

Module Ref.

(** A splitter that keeps a short text whole and cuts a long one into
    windows of [chunk_size] characters that overlap by [chunk_overlap]. *)
Fixpoint windows (fuel chunk_size step : nat) (text : pystr) : list pystr :=
  match fuel with
  | O => []
  | S fuel =>
      if bool_decide (length text ≤ chunk_size)%nat then [text]
      else take chunk_size text :: windows fuel chunk_size step (drop (S (pred step)) text)
  end.

Definition cut_text (chunk_size chunk_overlap : nat) (text : pystr) : list pystr :=
  match text with
  | [] => []
  | _ => windows (length text) chunk_size (chunk_size - chunk_overlap) text
  end.

(** Text loaders that read the modelled disk; there is no PDF parser here,
    so a PDF is reported as unreadable. *)
Definition read_text (fs : filesystem) (path : pystr) : result (list Document) :=
  match open_r path fs with
  | (Ok text, _) => Ok [ {| page_content := text; metadata := {[ py "source" := path ]} |} ]
  | (Raise e, _) => Raise e
  end.

Definition ingestion (fs : filesystem) : Ingestion :=
  {| embeddings_failure := None;
     chroma_open := λ dir _, Raise (Exception "ValueError" dir);
     pdf_load := λ path, Raise (Exception "PdfReadError" path);
     text_load := read_text fs;
     split_text := cut_text;
     chroma_build_failure := λ _ _ _, None;
     chroma_persist_failure := λ _, None |}.

(** A provider that answers when the key is the expected one and refuses
    any other key at the model call, as the hosted service does. *)
Definition valid_key : pystr := py "gsk_valid".

Definition provider : Provider :=
  {| groq_failure := λ _, None;
     similarity_search := λ db _ k, Ok (take k (collection db));
     llm_invoke := λ client messages,
       if bool_decide (groq_api_key client = valid_key)
       then Ok (py "Consider a data analyst role.")
       else Raise (Exception "AuthenticationError" (py "Invalid API Key")) |}.

End Ref.

(** * utils.py: the credential file *)

(** [dotenv.set_key(path, key, value)] rewrites the file at [path]; what
    it writes is the library's business. *)
Record Dotenv := {
  set_key : pystr → pystr → pystr → M filesystem ()
}.

(** [[
def save_api_key(key, env_path=".env"):
    if not os.path.exists(env_path):
        with open(env_path, "w") as f:
            f.write(f"GROQ_API_KEY={key}\n")
    else:
        set_key(env_path, "GROQ_API_KEY", key)
]] *)
Definition save_api_key (D : Dotenv) (key env_path : pystr) : M filesystem () :=
  found ← os_path_exists env_path;
  if negb found then
    open_w env_path;;
    write env_path (py "GROQ_API_KEY=" ++ key ++ newline)
  else set_key D env_path (py "GROQ_API_KEY") key.

(** [s.startswith(prefix)] *)
Definition startswith (s prefix : pystr) : bool := bool_decide (prefix `prefix_of` s).

(** * app.py: the rest of the sidebar *)

(** The "Connect Engine" button; the form is shown only [if not api_key].
    [[
    if input_key.startswith("gsk_"):
        save_api_key(input_key); st.success(...); st.rerun()
    else:
        st.error(...)
    ]] *)
Definition connect_engine (D : Dotenv) (api_key : option pystr) (input_key : pystr)
  : M world () :=
  if from_option truthy false api_key then mret ()
  else if startswith input_key (py "gsk_") then
    on_disk (save_api_key D input_key ENV_PATH);;
    st_rerun
  else mret ().

(** ** The list of past conversations *)

(** [a <= b] on strings: code point by code point, a proper prefix first. *)
Fixpoint str_le (a b : pystr) : bool :=
  match a, b with
  | [], _ => true
  | _ :: _, [] => false
  | x :: a', y :: b' => if x <? y then true else if y <? x then false else str_le a' b'
  end.

(** [{sid: sdata for sid, sdata in all_sessions.items() if sdata["messages"]}],
    on the items of the dict in their order. *)
Definition history_sessions (all_sessions : list (pystr * session)) : list (pystr * session) :=
  filter (λ item, s_messages item.2 ≠ []) all_sessions.

(** [sorted(items, key=lambda x: x[1].get('time', ''), reverse=True)]: the
    sort is stable, so that items of equal time keep their order; a stable
    sort has one result, computed here by insertion. *)
Fixpoint insert_by_time (item : pystr * session) (sorted : list (pystr * session))
  : list (pystr * session) :=
  match sorted with
  | [] => [item]
  | item' :: rest =>
      if str_le (s_time item'.2) (s_time item.2) then item :: item' :: rest
      else item' :: insert_by_time item rest
  end.

Definition sorted_sessions (items : list (pystr * session)) : list (pystr * session) :=
  foldr insert_by_time [] items.

(** [a] may stand before [b] in the list: it is not older. *)
Definition not_older (a b : pystr * session) : Prop :=
  str_le (s_time b.2) (s_time a.2) = true.

(** [sdata['name'] if len(sdata['name']) < 25 else sdata['name'][:22] + "..."] *)
Definition display_name (name : pystr) : pystr :=
  if bool_decide (length name < 25)%nat then name else take 22 name ++ py "...".



(** A click on the button of session [sid]:
    [[
    st.session_state.history["active_id"] = sid
    save_json(HISTORY_PATH, st.session_state.history)
    st.rerun()
    ]] *)
Definition select_session (J : JSON) (sid : pystr) : M world () :=
  w ← get;
  put (set_history {| sessions := sessions (history (state w)); active_id := Some sid |} w);;
  w ← get;
  on_disk (save_json J HISTORY_PATH (history_to_py (history (state w))));;
  st_rerun.

(** ** What the further statements need *)

(** The active pointer is a truthy id of a stored session. *)
Definition active_valid (h : history_store) : Prop :=
  ∃ a s, active_id h = Some a ∧ truthy a = true ∧ sessions h !! a = Some s.

(** The session under way once [prompt] was submitted to session [s]:
    renamed if it had no message, with the prompt appended. *)
Definition asked (prompt now_time : pystr) (s : session) : session :=
  {| s_name := if bool_decide (s_messages s = []) then auto_name prompt else s_name s;
     s_messages := s_messages s ++ [chat_message (py "user") prompt now_time];
     s_time := s_time s |}.

(** The session once the answer came: the answer appended, the time
    stamp renewed. *)
Definition answered (prompt response now_time now_full : pystr) (s : session) : session :=
  {| s_name := if bool_decide (s_messages s = []) then auto_name prompt else s_name s;
     s_messages := s_messages s ++ [chat_message (py "user") prompt now_time;
                                    chat_message (py "assistant") response now_time];
     s_time := now_full |}.

(** The file at [path] holds the serialised [data]. *)
Definition holds_dump (J : JSON) (fs : filesystem) (path : pystr) (data : pyval) : Prop :=
  ∃ r w, nodes fs !! path = Some (File r w (json_dump J data 4).1).

(** The same collaborators with another outcome of [db.persist()]. *)
Definition with_persist_failure (f : Chroma → option exn) (I : Ingestion) : Ingestion :=
  {| embeddings_failure := embeddings_failure I;
     chroma_open := chroma_open I;
     pdf_load := pdf_load I;
     text_load := text_load I;
     split_text := split_text I;
     chroma_build_failure := chroma_build_failure I;
     chroma_persist_failure := f |}.

(** What a file of the knowledge base contributes: its documents, or
    nothing when its loader raises. *)
Definition contribution (I : Ingestion) (kb file : pystr) : list Document :=
  match load_file I file (os_path_join kb file) with
  | Ok docs => docs
  | Raise _ => []
  end.

(** A replayed message that lacks its content. *)
Definition lacks_content (msg : message) : Prop :=
  (msg !! py "role" = Some (py "user") ∨ msg !! py "role" = Some (py "assistant")) ∧
  msg !! py "content" = None.

(** * Concrete inputs *)

Module Sample.

(** A profile as the "Save Profile" handler builds it. *)
Definition analyst : gmap pystr pystr :=
  <[py "skills" := py "Python, SQL"]> (<[py "education" := py "Graduate"]>
  (<[py "interest" := py "Data Scientist"]> ∅)).

(** A disk on which the history file holds valid JSON and the profile file
    was cut short. *)
Definition drive : filesystem :=
  {| nodes := <[HISTORY_PATH := File true true (py "{ " ++ [34] ++ py "active_id" ++ [34] ++ py ": null }")]>
              (<[PROFILE_PATH := File true true (py "{ " ++ [34] ++ py "skills")]> ∅);
     creatable := true |}.


Definition engine : CareerChatbotRAG :=
  {| persist_directory := default_persist_directory;
     knowledge_base_path := default_knowledge_base_path;
     embeddings := {| emb_model_name := py "all-MiniLM-L6-v2"; emb_device := py "cpu" |};
     vector_store := Some {| collection := fallback_corpus |};
     llm := None |}.

(** A disk with a knowledge base whose files give no document: a picture,
    and a text file that cannot be read. *)
Definition barren_disk : filesystem :=
  {| nodes := <[default_knowledge_base_path := Dir [py "logo.png"; py "notes.txt"]]>
              (<[py "./knowledge_base/notes.txt" := File false true (py "private")]> ∅);
     creatable := true |}.

(** The orchestrator as [__init__] leaves it. *)
Definition new_engine : CareerChatbotRAG :=
  {| persist_directory := default_persist_directory;
     knowledge_base_path := default_knowledge_base_path;
     embeddings := {| emb_model_name := py "all-MiniLM-L6-v2"; emb_device := py "cpu" |};
     vector_store := None;
     llm := None |}.

(** A provider whose network is down. *)
Definition offline : Provider :=
  {| groq_failure := λ _, None;
     similarity_search := λ db _ k, Ok (take k (collection db));
     llm_invoke := λ _ _, Raise (Exception "APIConnectionError" (py "Connection error.")) |}.

Definition question : pystr := py "Should I learn Rust or Go for backend work?".

(** A history with a message of an unknown role in the middle. *)
Definition mixed_history : list message :=
  [chat_message (py "user") (py "Hello") (py "09:00");
   chat_message (py "system") (py "internal note") (py "09:00");
   chat_message (py "assistant") (py "Hi, how can I help?") (py "09:00")].

(** A store with one conversation under way, which is the active one. *)
Definition busy_id : pystr := py "3f2b8c1e-0d4a-4e6f-9a7b-1c2d3e4f5a6b".

Definition busy_session : session :=
  {| s_name := py "Data careers";
     s_messages := [chat_message (py "user") (py "Data careers") (py "09:30");
                    chat_message (py "assistant") (py "Start with SQL.") (py "09:30")];
     s_time := py "2024-05-01 09:30:12" |}.

Definition busy_history : history_store :=
  {| sessions := <[busy_id := busy_session]> ∅; active_id := Some busy_id |}.

Definition busy_world : world :=
  {| state := {| history := busy_history; profile := analyst; rag := engine |};
     disk := drive |}.

(** The same store after a fresh conversation was opened. *)
Definition fresh_world : world :=
  {| state := {| history := with_new_session (uuid_str 7) (py "2024-05-01 10:00:00") busy_history;
                 profile := analyst; rag := engine |};
     disk := drive |}.

End Sample.

(** * Further concrete inputs *)

Module Tour.

(** A knowledge base with a note that loads, a PDF that does not, and a
    second note. *)
Definition library_disk : filesystem :=
  {| nodes := <[default_knowledge_base_path := Dir [py "a.txt"; py "b.pdf"; py "c.txt"]]>
              (<[py "./knowledge_base/a.txt" := File true true (py "Learn SQL first.")]>
              (<[py "./knowledge_base/c.txt" := File true true (py "Then learn Python.")]> ∅));
     creatable := true |}.

(** A history in which a user message has lost its content. *)
Definition damaged_history : list message :=
  [chat_message (py "assistant") (py "Welcome") (py "08:59");
   <[py "role" := py "user"]> (<[py "time" := py "09:00"]> ∅)].

(** The orchestrator with a client built from an earlier key. *)
Definition active_engine : CareerChatbotRAG :=
  set_llm {| groq_api_key := Ref.valid_key; model_name := py "llama-3.1-8b-instant";
             temperature := (1 # 2)%Q |} Sample.engine.

(** A value of [uuid4] whose string is the id of the conversation under
    way in [Sample.busy_world]. *)
Definition taken_uuid : N := 0x3f2b8c1e0d4a4e6f9a7b1c2d3e4f5a6b.

(** A [set_key] that appends the assignment to the file. *)
Definition dotenv : Dotenv :=
  {| set_key := λ path key value, write path (key ++ py "=" ++ value ++ newline) |}.

(** Three stored sessions, one of them without messages. *)
Definition older : session :=
  {| s_name := py "Switching from accounting to data analysis";
     s_messages := [chat_message (py "user") (py "Hi") (py "08:00")];
     s_time := py "2024-04-30 08:00:00" |}.

Definition items : list (pystr * session) :=
  [(py "id-old", older);
   (py "id-new", new_session (py "2024-05-02 10:00:00"));
   (Sample.busy_id, Sample.busy_session)].

End Tour.

(** * Properties *)

(** ** Unfolding the monad *)

Ltac run :=
  repeat (unfold mbind, M_bind, mret, M_ret, result_bind, result_ret, get, put, raise,
            lift, try_except, try_result, except_all, except_Exception; simpl).

Lemma bool_decide_is_Some_lookup {V} (m : gmap pystr V) (k : pystr) :
  bool_decide (is_Some (m !! k)) = match m !! k with Some _ => true | None => false end.
Proof.
  destruct (m !! k) eqn:E.
  - apply bool_decide_eq_true_2. eauto.
  - apply bool_decide_eq_false_2. intros [? ?]. discriminate.
Qed.

(** ** utils.py *)

Section Persistence.
Variable J : JSON.

Lemma open_w_ok fs path :
  writable_at fs path = true →
  open_w path fs = (Ok (), set_node path (saved_file fs path []) fs).
Proof.
  unfold writable_at, open_w, saved_file. run.
  destruct (nodes fs !! path) as [[|r [] c]|]; try discriminate; try reflexivity.
  intros ->. reflexivity.
Qed.

Lemma open_w_fails fs path :
  writable_at fs path = false →
  ∃ class, open_w path fs = (Raise (Exception class path), fs).
Proof.
  unfold writable_at, open_w. run.
  destruct (nodes fs !! path) as [[|r [] c]|]; try discriminate; eauto.
  intros ->. eauto.
Qed.

Lemma set_node_twice path n1 n2 fs :
  set_node path n2 (set_node path n1 fs) = set_node path n2 fs.
Proof. unfold set_node. simpl. by rewrite insert_insert_eq. Qed.

(** What [save_json] does, case by case. *)
Lemma save_json_eq path data fs :
  save_json J path data fs =
  if writable_at fs path then
    (match (json_dump J data 4).2 with Some e => Raise e | None => Ok () end,
     set_node path (saved_file fs path (json_dump J data 4).1) fs)
  else (open_w path fs).
Proof.
  destruct (writable_at fs path) eqn:W.
  - unfold save_json. unfold mbind at 1, M_bind at 1.
    rewrite (open_w_ok _ _ W).
    destruct (json_dump J data 4) as [text failure]. simpl.
    unfold write, saved_file. run. rewrite lookup_insert_eq.
    destruct (nodes fs !! path) as [[|r w c]|]; simpl;
      rewrite set_node_twice; destruct failure; reflexivity.
  - destruct (open_w_fails _ _ W) as [class E].
    unfold save_json. unfold mbind at 1, M_bind at 1. by rewrite E.
Qed.

(** What [load_json] returns, case by case; the disk is only read. *)
Lemma load_json_eq path default fs :
  load_json J path default fs =
  (Ok match nodes fs !! path with
      | Some (File true _ text) =>
          match json_load J text with Ok v => v | Raise _ => default end
      | _ => default
      end, fs).
Proof.
  unfold load_json, os_path_exists, open_r. run.
  rewrite bool_decide_is_Some_lookup.
  destruct (nodes fs !! path) as [[|[] w text]|] eqn:E; simpl; rewrite ?E; simpl;
    try reflexivity.
  destruct (json_load J text); reflexivity.
Qed.

End Persistence.

(** ** The profile and the sessions *)

Lemma uuid_str_truthy (u : N) : truthy (uuid_str u) = true.
Proof. reflexivity. Qed.

Lemma uuid_str_length (u : N) : length (uuid_str u) = 36%nat.
Proof. reflexivity. Qed.

Lemma active_chat_is_empty_spec (h : history_store) :
  active_chat_is_empty h = true ↔
  ∃ a s, active_id h = Some a ∧ a ≠ [] ∧ sessions h !! a = Some s ∧ s_messages s = [].
Proof.
  unfold active_chat_is_empty. split.
  - destruct (active_id h) as [a|]; [|discriminate].
    destruct a as [|c a]; [discriminate|]. simpl.
    destruct (sessions h !! (c :: a)) as [s|] eqn:E; [|discriminate].
    intros Hm. apply bool_decide_eq_true_1 in Hm. exists (c :: a), s. done.
  - intros (a & s & -> & Ha & -> & Hm).
    destruct a; [done|]. simpl. by apply bool_decide_eq_true_2.
Qed.

Section Handlers.
Variable J : JSON.

(** The "Reset" handler, step by step. *)
Lemma reset_profile_eq (w : world) :
  reset_profile J w =
  let w1 := set_profile default_profile w in
  let r := save_json J PROFILE_PATH (profile_to_py default_profile) (disk w) in
  (match r.1 with Ok _ => Raise rerun_signal | Raise e => Raise e end, set_disk r.2 w1).
Proof.
  unfold reset_profile, on_disk. run.
  destruct (save_json J PROFILE_PATH (profile_to_py default_profile) (disk w)) as [[[]|e] fs];
    reflexivity.
Qed.

(** The "New Conversation" handler, step by step. *)
Lemma new_conversation_eq (uuid4 : N) (now : pystr) (w : world) :
  new_conversation J uuid4 now w =
  if active_chat_is_empty (history (state w)) then (Raise rerun_signal, w)
  else
    let h' := with_new_session (uuid_str uuid4) now (history (state w)) in
    let r := save_json J HISTORY_PATH (history_to_py h') (disk w) in
    (match r.1 with Ok _ => Raise rerun_signal | Raise e => Raise e end,
     set_disk r.2 (set_history h' w)).
Proof.
  unfold new_conversation, on_disk. run.
  destruct (active_chat_is_empty (history (state w))); simpl; [reflexivity|].
  destruct (save_json J HISTORY_PATH _ (disk w)) as [[[]|e] fs]; reflexivity.
Qed.

End Handlers.

Section Persistence_claims.
Variable J : JSON.

(** C4. [load_json] never raises and leaves the disk as it was.  It
    returns the default when the path is missing and when the file does
    not parse as JSON; when the file is there, can be read and parses,
    it returns the parsed content. *)
Theorem load_json_default_or_parsed (path : pystr) (default : pyval) (fs : filesystem) :
  (∃ v, load_json J path default fs = (Ok v, fs)) ∧
  (nodes fs !! path = None → load_json J path default fs = (Ok default, fs)) ∧
  (∀ r w text e,
      nodes fs !! path = Some (File r w text) → json_load J text = Raise e →
      load_json J path default fs = (Ok default, fs)) ∧
  (∀ w text v,
      nodes fs !! path = Some (File true w text) → json_load J text = Ok v →
      load_json J path default fs = (Ok v, fs)).
Proof.
  rewrite load_json_eq. repeat split.
  - eauto.
  - intros ->. reflexivity.
  - intros r w text e -> E. destruct r; [rewrite E|]; reflexivity.
  - intros w text v -> E. by rewrite E.
Qed.


(** C6. After a save that succeeded, a load from the same path returns
    the saved data and not the default, provided the file can be read
    back and [json.load] inverts [json.dump] on that data. *)
Theorem save_then_load (path : pystr) (data default : pyval) (fs fs' : filesystem) :
  save_json J path data fs = (Ok (), fs') →
  readable_at fs path = true →
  json_load J (json_dump J data 4).1 = Ok data →
  load_json J path default fs' = (Ok data, fs').
Proof.
  rewrite save_json_eq. intros Hsave Hread Hcodec.
  destruct (writable_at fs path) eqn:W.
  - injection Hsave as Hok <-. rewrite load_json_eq. simpl.
    rewrite lookup_insert_eq. unfold saved_file, readable_at in *.
    destruct (nodes fs !! path) as [[|r w c]|]; try discriminate; simpl.
    + subst r. by rewrite Hcodec.
    + by rewrite Hcodec.
  - destruct (open_w_fails _ _ W) as [class E]. rewrite E in Hsave. discriminate.
Qed.

End Persistence_claims.

(** C4 on a disk: a missing path and a truncated file give the default, a
    well-formed file gives its content. *)
Lemma load_json_default_or_parsed_witness :
  load_json RefJson.json (py "nowhere.json") PyNone Sample.drive = (Ok PyNone, Sample.drive) ∧
  load_json RefJson.json PROFILE_PATH startup_profile_default Sample.drive
    = (Ok startup_profile_default, Sample.drive) ∧
  load_json RefJson.json HISTORY_PATH startup_history_default Sample.drive
    = (Ok (PyDict (<[py "active_id" := PyNone]> ∅)), Sample.drive).
Proof.
  split; [|split].
  - apply (load_json_default_or_parsed RefJson.json (py "nowhere.json") PyNone Sample.drive).
    reflexivity.
  - refine (proj1 (proj2 (proj2 (load_json_default_or_parsed RefJson.json PROFILE_PATH
              startup_profile_default Sample.drive))) true true _ RefJson.decode_error _ _);
      reflexivity.
  - refine (proj2 (proj2 (proj2 (load_json_default_or_parsed RefJson.json HISTORY_PATH
              startup_history_default Sample.drive))) true _ _ _ _);
      reflexivity.
Defined.



(** C6 on a disk: the profile saved over the truncated file is read back. *)
Lemma save_then_load_witness :
  load_json RefJson.json PROFILE_PATH startup_profile_default
    (save_json RefJson.json PROFILE_PATH (profile_to_py Sample.analyst) Sample.drive).2
  = (Ok (profile_to_py Sample.analyst),
     (save_json RefJson.json PROFILE_PATH (profile_to_py Sample.analyst) Sample.drive).2).
Proof.
  apply (save_then_load RefJson.json PROFILE_PATH (profile_to_py Sample.analyst)
           startup_profile_default Sample.drive).
  - vm_compute. reflexivity.
  - reflexivity.
  - vm_compute. reflexivity.
Defined.


Section Handler_claims.
Variable J : JSON.

(** C9. Whatever the profile was, after "Reset" the profile in memory is
    the default one: skills and interest empty, education "Student",
    and no other field; it is the default the page starts from when no
    profile file exists.  The rest of the session state is untouched.
    When the save succeeds, the profile file holds the serialised
    default profile and nothing of its previous content. *)
Theorem reset_profile_sets_defaults (w : world) :
  let w' := (reset_profile J w).2 in
  profile (state w') = default_profile ∧
  default_profile !! py "skills" = Some [] ∧
  default_profile !! py "education" = Some (py "Student") ∧
  default_profile !! py "interest" = Some [] ∧
  dom default_profile = {[py "skills"; py "education"; py "interest"]} ∧
  profile_to_py default_profile = startup_profile_default ∧
  history (state w') = history (state w) ∧
  rag (state w') = rag (state w) ∧
  (writable_at (disk w) PROFILE_PATH = true →
   (json_dump J (profile_to_py default_profile) 4).2 = None →
   (reset_profile J w).1 = Raise rerun_signal ∧
   nodes (disk w') !! PROFILE_PATH =
     Some (saved_file (disk w) PROFILE_PATH (json_dump J (profile_to_py default_profile) 4).1)).
Proof.
  rewrite reset_profile_eq. simpl.
  do 8 (split; [reflexivity|]).
  intros Hw Hdump. rewrite save_json_eq, Hw. simpl. rewrite Hdump.
  split; [reflexivity|]. by rewrite lookup_insert_eq.
Qed.

(** C10, as the code has it.  "New Conversation" leaves the world as it
    is when the active pointer is a (non-empty) id of a stored session
    without messages.  Otherwise it stores, under the id that [uuid4]
    gives, a session with the placeholder name and no message, and makes
    it the active one; every session stored under another id is kept.
    The handler does not look whether the id is in use: when it is new
    the store has exactly one session more, and when a session is stored
    under it already, that session is replaced and the store has as many
    sessions as before.  A second click changes nothing more. *)
Theorem new_conversation_conditional (uuid4 : N) (now : pystr) (w : world) :
  let h := history (state w) in
  let w' := (new_conversation J uuid4 now w).2 in
  let h' := history (state w') in
  ((∃ a s, active_id h = Some a ∧ a ≠ [] ∧ sessions h !! a = Some s ∧ s_messages s = []) →
   new_conversation J uuid4 now w = (Raise rerun_signal, w)) ∧
  (¬ (∃ a s, active_id h = Some a ∧ a ≠ [] ∧ sessions h !! a = Some s ∧ s_messages s = []) →
   active_id h' = Some (uuid_str uuid4) ∧
   sessions h' !! uuid_str uuid4
     = Some {| s_name := py "Career Planning"; s_messages := []; s_time := now |} ∧
   (∀ sid, sid ≠ uuid_str uuid4 → sessions h' !! sid = sessions h !! sid) ∧
   (sessions h !! uuid_str uuid4 = None →
    size (sessions h') = S (size (sessions h)) ∧
    dom (sessions h') = {[uuid_str uuid4]} ∪ dom (sessions h)) ∧
   (∀ old, sessions h !! uuid_str uuid4 = Some old →
    size (sessions h') = size (sessions h) ∧
    dom (sessions h') = dom (sessions h)) ∧
   profile (state w') = profile (state w) ∧
   rag (state w') = rag (state w)) ∧
  (∀ uuid4' now', new_conversation J uuid4' now' w' = (Raise rerun_signal, w')).
Proof.
  intros h w' h'. subst h w' h'. rewrite new_conversation_eq.
  destruct (active_chat_is_empty (history (state w))) eqn:E.
  - split; [reflexivity|]. split.
    + intros Hn. exfalso. apply Hn. by apply active_chat_is_empty_spec.
    + intros u' n'. simpl. rewrite new_conversation_eq. by rewrite E.
  - split; [|split].
    + intros Hex. apply active_chat_is_empty_spec in Hex. congruence.
    + intros _. simpl.
      split; [reflexivity|]. split; [apply lookup_insert_eq|].
      split; [intros sid Hne; by apply lookup_insert_ne|].
      split; [|split; [|by split]].
      * intros Hnew. split; [by apply map_size_insert_None|apply dom_insert_L].
      * intros old Hold. split; [by eapply map_size_insert_Some|].
        rewrite dom_insert_L. apply subseteq_union_1_L, singleton_subseteq_l.
        by eapply elem_of_dom_2.
    + intros u' n'. simpl. rewrite new_conversation_eq.
      replace (active_chat_is_empty _) with true; [reflexivity|].
      symmetry. apply active_chat_is_empty_spec. simpl.
      exists (uuid_str uuid4), (new_session now).
      rewrite lookup_insert_eq. repeat split. discriminate.
Qed.

End Handler_claims.

(** C9 on a disk that accepts the write: the reset ends in the rerun of
    the page and the profile file holds the default profile. *)
Lemma reset_profile_sets_defaults_witness :
  (reset_profile RefJson.json Sample.busy_world).1 = Raise rerun_signal ∧
  load_json RefJson.json PROFILE_PATH PyNone (disk (reset_profile RefJson.json Sample.busy_world).2)
  = (Ok startup_profile_default, disk (reset_profile RefJson.json Sample.busy_world).2).
Proof.
  destruct (reset_profile_sets_defaults RefJson.json Sample.busy_world)
    as (_ & _ & _ & _ & _ & _ & _ & _ & Hfile).
  assert (Hw : writable_at (disk Sample.busy_world) PROFILE_PATH = true) by reflexivity.
  assert (Hdump : (json_dump RefJson.json (profile_to_py default_profile) 4).2 = None)
    by (vm_compute; reflexivity).
  destruct (Hfile Hw Hdump) as [Hrun _].
  split; [exact Hrun | vm_compute; reflexivity].
Defined.

(** C10 on the two stores: with a conversation under way a click opens a
    new session under an id that is new, and the store has one session
    more; on the store so obtained a click changes nothing. *)
Lemma new_conversation_conditional_witness :
  active_id (history (state (new_conversation RefJson.json 7 (py "2024-05-01 10:00:00")
                               Sample.busy_world).2)) = Some (uuid_str 7) ∧
  size (sessions (history (state (new_conversation RefJson.json 7 (py "2024-05-01 10:00:00")
                                    Sample.busy_world).2))) = 2%nat ∧
  new_conversation RefJson.json 9 (py "2024-05-01 10:05:00") Sample.fresh_world
  = (Raise rerun_signal, Sample.fresh_world).
Proof.
  assert (Hbusy : ¬ (∃ a s, active_id (history (state Sample.busy_world)) = Some a ∧ a ≠ [] ∧
                            sessions (history (state Sample.busy_world)) !! a = Some s ∧
                            s_messages s = [])).
  { intros (a & s & Ha & _ & Hs & Hm). injection Ha as <-.
    vm_compute in Hs. injection Hs as <-. discriminate. }
  destruct (proj1 (proj2 (new_conversation_conditional RefJson.json 7
                            (py "2024-05-01 10:00:00") Sample.busy_world)) Hbusy)
    as (Hactive & _ & _ & Hnew & _).
  split; [exact Hactive|]. split.
  - rewrite (proj1 (Hnew eq_refl)). reflexivity.
  - refine (proj1 (new_conversation_conditional RefJson.json 9
                             (py "2024-05-01 10:05:00") Sample.fresh_world) _).
    exists (uuid_str 7), (new_session (py "2024-05-01 10:00:00")).
    split; [reflexivity|]. split; [discriminate|].
    split; [vm_compute; reflexivity | reflexivity].
Defined.

(** C10 as stated fails when [uuid4] gives an id that is in use: the
    active conversation has messages, so the handler takes the branch
    that creates a session, and the session it stores takes the place of
    the conversation stored under that id: no session is added, and the
    two messages of the conversation are gone. *)
Lemma new_conversation_adds_one_session_counterexample :
  let w := Sample.busy_world in
  let w' := (new_conversation RefJson.json Tour.taken_uuid (py "2024-05-01 10:00:00") w).2 in
  uuid_str Tour.taken_uuid = Sample.busy_id ∧
  active_chat_is_empty (history (state w)) = false ∧
  sessions (history (state w)) !! Sample.busy_id = Some Sample.busy_session ∧
  length (s_messages Sample.busy_session) = 2%nat ∧
  sessions (history (state w')) !! Sample.busy_id
    = Some (new_session (py "2024-05-01 10:00:00")) ∧
  size (sessions (history (state w'))) = size (sessions (history (state w))) ∧
  size (sessions (history (state w'))) ≠ S (size (sessions (history (state w)))).
Proof.
  cbv zeta. split; [reflexivity|]. split; [reflexivity|].
  split; [vm_compute; reflexivity|]. split; [reflexivity|].
  split; [vm_compute; reflexivity|]. split; vm_compute; [reflexivity|discriminate].
Qed.

(** ** CareerChatbotRAG.chat *)

Section Chat.
Variable P : Provider.

Lemma ensure_llm_eq api_key self :
  ensure_llm P api_key self =
  match client_of P self api_key with
  | Ok client => (Ok client, with_client client self)
  | Raise e => (Raise e, self)
  end.
Proof.
  unfold ensure_llm, client_of, with_client. run.
  destruct (llm self); [reflexivity|].
  destruct (ChatGroq_new P api_key); reflexivity.
Qed.

Lemma retrieve_eq user_query self :
  retrieve P user_query self = (docs_of P self user_query, self).
Proof. unfold retrieve, docs_of. run. destruct (vector_store self); reflexivity. Qed.

Lemma docs_of_with_client client self user_query :
  docs_of P (with_client client self) user_query = docs_of P self user_query.
Proof. unfold docs_of, with_client. destruct (llm self); reflexivity. Qed.

(** The [try] block, step by step. *)
Lemma chat_body_eq user_query history api_key user_profile self :
  chat_body P user_query history api_key user_profile self =
  match client_of P self api_key with
  | Raise e => (Raise e, self)
  | Ok client =>
      (docs ← docs_of P self user_query;
       messages ← assemble_messages user_profile docs history user_query;
       response ← llm_invoke P client messages;
       Ok (response, docs),
       with_client client self)
  end.
Proof.
  unfold chat_body. unfold mbind at 1, M_bind at 1. rewrite ensure_llm_eq.
  destruct (client_of P self api_key) as [client|e]; [|reflexivity].
  unfold mbind at 1, M_bind at 1. rewrite retrieve_eq, docs_of_with_client.
  destruct (docs_of P self user_query) as [docs|e]; [|reflexivity].
  run. destruct (assemble_messages user_profile docs history user_query); [|reflexivity].
  simpl. destruct (llm_invoke P client a); reflexivity.
Qed.

Lemma step_fails_raises user_query history api_key user_profile self e :
  step_fails P self user_query history api_key user_profile e →
  (chat_body P user_query history api_key user_profile self).1 = Raise e.
Proof.
  rewrite chat_body_eq.
  intros [e' Hc|c e' Hc Hd|c docs e' Hc Hd Ha|c docs ms e' Hc Hd Ha Hm]; rewrite Hc;
    [reflexivity|simpl; rewrite Hd..]; try reflexivity.
  - simpl. by rewrite Ha.
  - simpl. rewrite Ha. simpl. by rewrite Hm.
Qed.

Lemma chat_eq user_query history api_key user_profile self :
  chat P user_query history api_key user_profile self =
  (absorbed (chat_body P user_query history api_key user_profile self).1,
   match client_of P self api_key with
   | Ok client => with_client client self
   | Raise _ => self
   end).
Proof.
  unfold chat, try_except. rewrite chat_body_eq.
  unfold except_Exception.
  destruct (client_of P self api_key) as [c|e]; cbn [fst snd].
  - match goal with |- context [match ?r with Ok _ => _ | Raise _ => _ end] =>
      destruct r as [a|e] end; cbn [absorbed]; [reflexivity|].
    destruct (isinstance_Exception e); reflexivity.
  - cbn [absorbed]. destruct (isinstance_Exception e); reflexivity.
Qed.

Lemma chat_llm user_query history api_key user_profile self :
  llm (chat P user_query history api_key user_profile self).2 =
  match llm self with
  | Some client => Some client
  | None => match ChatGroq_new P api_key with Ok client => Some client | Raise _ => None end
  end.
Proof.
  rewrite chat_eq. simpl. unfold client_of, with_client.
  destruct (llm self) as [c|] eqn:E; [exact E|].
  destruct (ChatGroq_new P api_key); simpl; [reflexivity|exact E].
Qed.

Lemma chat_vector_store user_query history api_key user_profile self :
  vector_store (chat P user_query history api_key user_profile self).2 = vector_store self.
Proof.
  rewrite chat_eq. simpl. unfold with_client.
  destruct (client_of P self api_key); [|reflexivity].
  destruct (llm self); reflexivity.
Qed.

End Chat.

(** ** The assembled messages *)

Lemma contains_refl (s : pystr) : contains s s.
Proof. exists [], []. by rewrite app_nil_r. Qed.

Lemma contains_app_l (s t needle : pystr) : contains s needle → contains (s ++ t) needle.
Proof. intros (b & a & ->). exists b, (a ++ t). by rewrite <- !app_assoc. Qed.

Lemma contains_app_r (s t needle : pystr) : contains t needle → contains (s ++ t) needle.
Proof. intros (b & a & ->). exists (s ++ b), a. by rewrite <- !app_assoc. Qed.

Lemma contains_trans (s t u : pystr) : contains s t → contains t u → contains s u.
Proof.
  intros (b & a & ->) (b' & a' & ->). exists (b ++ b'), (a' ++ a).
  by rewrite <- !app_assoc.
Qed.

Lemma contains_join (sep : pystr) (parts : list pystr) (p : pystr) :
  p ∈ parts → contains (join sep parts) p.
Proof.
  induction parts as [|q parts IH]; intros Hin.
  - by apply elem_of_nil in Hin.
  - apply elem_of_cons in Hin as [->|Hin].
    + destruct parts; [apply contains_refl|]. apply contains_app_l, contains_refl.
    + destruct parts as [|q' parts]; [by apply elem_of_nil in Hin|].
      change (contains (q ++ sep ++ join sep (q' :: parts)) p).
      by apply contains_app_r, contains_app_r, IH.
Qed.

Lemma replay_message_well_formed (msg : message) (messages : list lc_message) :
  well_formed msg →
  replay_message msg messages = Ok (messages ++ option_list (role_mapped msg)).
Proof.
  unfold well_formed, replay_message, role_mapped, getitem. intros Hwf.
  destruct (msg !! py "role") as [role|] eqn:Hrole.
  - destruct (decide (role = py "user")) as [->|Hu].
    + rewrite !bool_decide_eq_true_2 by done.
      destruct Hwf as [c ->]; [by left|]. reflexivity.
    + rewrite (bool_decide_eq_false_2 (Some role = _)) by congruence.
      rewrite (bool_decide_eq_false_2 (role = py "user")) by done.
      destruct (decide (role = py "assistant")) as [->|Ha].
      * rewrite !bool_decide_eq_true_2 by done.
        destruct Hwf as [c ->]; [by right|]. reflexivity.
      * rewrite (bool_decide_eq_false_2 (Some role = _)) by congruence.
        rewrite (bool_decide_eq_false_2 (role = py "assistant")) by done.
        simpl. by rewrite app_nil_r.
  - rewrite !bool_decide_eq_false_2 by discriminate. simpl. by rewrite app_nil_r.
Qed.

Lemma replay_history_well_formed (history : list message) (messages : list lc_message) :
  Forall well_formed history →
  replay_history history messages = Ok (messages ++ omap role_mapped history).
Proof.
  intros Hwf. revert messages.
  induction Hwf as [|msg history Hmsg _ IH]; intros messages; simpl.
  - by rewrite app_nil_r.
  - rewrite (replay_message_well_formed _ _ Hmsg). simpl. rewrite IH.
    destruct (role_mapped msg); simpl; by rewrite <- ?app_assoc, ?app_nil_r.
Qed.

(** C2. The messages handed to the model are: first one system message,
    then the prior messages in their order, a user message for role
    "user", an assistant message for role "assistant", nothing for any
    other role; last the new query.  The text of the system message is
    spelled out from the inputs: the persona sentence, the profile line
    with the three values of the profile (or "Unknown", "Unknown",
    "General" for a missing key), the texts of the retrieved chunks with a
    blank line between them, and the four rules.  The model call of
    [chat] receives exactly this list. *)
Theorem assembled_messages_in_order (user_profile : gmap pystr pystr)
    (docs : list Document) (history : list message) (user_query : pystr) :
  Forall well_formed history →
  let skills := default (py "Unknown") (user_profile !! py "skills") in
  let education := default (py "Unknown") (user_profile !! py "education") in
  let interest := default (py "General") (user_profile !! py "interest") in
  let summary :=
    py "User Profile: Skills(" ++ skills ++ py "), Education(" ++ education
    ++ py "), Interest(" ++ interest ++ py ")." in
  let chunks := join [10; 10] (page_content <$> docs) in
  let blanks := replicate 16 32 in
  let system :=
    py "You are a Technical AI Career Guidance Assistant. " ++ [10] ++ blanks
    ++ summary ++ [10] ++ blanks
    ++ py "Use the following context to provide professional, mentor-grade advice: "
    ++ chunks ++ [10] ++ blanks
    ++ [10] ++ blanks
    ++ py "Rules:" ++ [10] ++ blanks
    ++ py "1. Provide structured, clear, and encouraging guidance." ++ [10] ++ blanks
    ++ py "2. Use professional typography: bullet points for steps and skills." ++ [10] ++ blanks
    ++ py "3. Tailor recommendations specifically to the user's provided profile." ++ [10] ++ blanks
    ++ py "4. Maintain a calm, neutral, and helpful tone." in
  let assembled := SystemMessage system :: omap role_mapped history ++ [HumanMessage user_query] in
  assemble_messages user_profile docs history user_query = Ok assembled ∧
  contains system (py "You are a Technical AI Career Guidance Assistant. ") ∧
  contains system (py "Rules:") ∧
  contains system summary ∧
  (∀ key value, key ∈ [py "skills"; py "education"; py "interest"] →
                user_profile !! key = Some value → contains system value) ∧
  (∀ d, d ∈ docs → contains system (page_content d)) ∧
  (∀ P self api_key client,
      client_of P self api_key = Ok client →
      docs_of P self user_query = Ok docs →
      (chat P user_query history api_key user_profile self).1
      = absorbed ((λ response, (response, docs)) <$> llm_invoke P client assembled)).
Proof.
  intros Hwf skills education interest summary chunks blanks system assembled.
  assert (Hsystem : system_prompt (profile_context user_profile) (retrieved_context docs)
                    = system) by reflexivity.
  assert (Hasm : assemble_messages user_profile docs history user_query = Ok assembled).
  { unfold assemble_messages. rewrite (replay_history_well_formed _ _ Hwf).
    simpl. by rewrite Hsystem. }
  assert (Hsummary : contains system summary).
  { subst system. do 3 apply contains_app_r. apply contains_app_l, contains_refl. }
  split; [exact Hasm|]. split; [|split; [|split; [|split; [|split]]]].
  - subst system. apply contains_app_l, contains_refl.
  - subst system. do 12 apply contains_app_r. apply contains_app_l, contains_refl.
  - exact Hsummary.
  - intros key value Hkey Hvalue.
    apply (contains_trans _ summary); [exact Hsummary|].
    subst summary skills education interest.
    apply elem_of_cons in Hkey as [->|Hkey]; [|apply elem_of_cons in Hkey as [->|Hkey];
      [|apply list_elem_of_singleton in Hkey as ->]]; rewrite Hvalue.
    + apply contains_app_r, contains_app_l. exact (contains_refl value).
    + do 3 apply contains_app_r. apply contains_app_l. exact (contains_refl value).
    + do 5 apply contains_app_r. apply contains_app_l. exact (contains_refl value).
  - intros d Hd. subst system chunks. do 7 apply contains_app_r. apply contains_app_l.
    apply contains_join. by apply list_elem_of_fmap_2.
  - intros P self api_key client Hc Hdocs.
    rewrite chat_eq, chat_body_eq, Hc. cbn [fst snd]. rewrite Hdocs. simpl.
    rewrite Hasm. simpl. destruct (llm_invoke P client assembled); reflexivity.
Qed.

(** C2 on a history with a message of role "system" between a user and
    an assistant message, with the system text written out. *)
Lemma assembled_messages_in_order_witness :
  assemble_messages Sample.analyst fallback_corpus Sample.mixed_history Sample.question
  = Ok [SystemMessage
          (py "You are a Technical AI Career Guidance Assistant. " ++ [10]
           ++ py "                User Profile: Skills(Python, SQL), Education(Graduate), Interest(Data Scientist)." ++ [10]
           ++ py "                Use the following context to provide professional, mentor-grade advice: Data Science includes roles like Data Analyst, ML Engineer, and Research Scientist." ++ [10; 10]
           ++ py "Software Engineering requires mastery of algorithms, systems design, and version control." ++ [10]
           ++ py "                " ++ [10]
           ++ py "                Rules:" ++ [10]
           ++ py "                1. Provide structured, clear, and encouraging guidance." ++ [10]
           ++ py "                2. Use professional typography: bullet points for steps and skills." ++ [10]
           ++ py "                3. Tailor recommendations specifically to the user's provided profile." ++ [10]
           ++ py "                4. Maintain a calm, neutral, and helpful tone.");
        HumanMessage (py "Hello");
        AIMessage (py "Hi, how can I help?");
        HumanMessage (py "Should I learn Rust or Go for backend work?")].
Proof.
  assert (Hwf : Forall well_formed Sample.mixed_history)
    by (repeat constructor; intros _; vm_compute; eauto).
  rewrite (proj1 (assembled_messages_in_order Sample.analyst fallback_corpus
                    Sample.mixed_history Sample.question Hwf)).
  vm_compute. reflexivity.
Defined.

(** ** The fail-soft boundary of [chat] *)


(** The steps that the code itself makes fail raise instances of
    [Exception]: a missing index is an [AttributeError], a replayed
    message without content a [KeyError]. *)
Lemma own_failures_are_Exceptions (P : Provider) (self : CareerChatbotRAG)
    (user_query : pystr) (history : list message) (user_profile : gmap pystr pystr)
    (docs : list Document) :
  (∀ e, vector_store self = None → docs_of P self user_query = Raise e →
        isinstance_Exception e = true) ∧
  (∀ e, assemble_messages user_profile docs history user_query = Raise e →
        isinstance_Exception e = true).
Proof.
  split.
  - unfold docs_of. intros e ->. by intros [= <-].
  - unfold assemble_messages.
    generalize [SystemMessage (system_prompt (profile_context user_profile)
                                 (retrieved_context docs))].
    induction history as [|msg history IH]; intros messages e; simpl; [discriminate|].
    unfold replay_message at 1, getitem.
    repeat case_bool_decide; simpl;
      try (destruct (msg !! py "content"); simpl; [|by intros [= <-]]); apply IH.
Qed.

(** With a provider whose failures are errors, [chat] returns a pair on
    every input and from every state of the orchestrator. *)
Lemma chat_never_raises (P : Provider) (self : CareerChatbotRAG) (user_query : pystr)
    (history : list message) (api_key : pystr) (user_profile : gmap pystr pystr) :
  raises_Exceptions_only P →
  ∃ answer, (chat P user_query history api_key user_profile self).1 = Ok answer.
Proof.
  intros (Hgroq & Hsearch & Hinvoke). rewrite chat_eq, chat_body_eq. cbn [fst].
  assert (Hclient : ∀ e, client_of P self api_key = Raise e → isinstance_Exception e = true).
  { unfold client_of, ChatGroq_new. destruct (llm self); [discriminate|].
    destruct (groq_failure P api_key) eqn:F; [|discriminate].
    intros e' [= <-]. by eapply Hgroq. }
  assert (Hdocs : ∀ e, docs_of P self user_query = Raise e → isinstance_Exception e = true).
  { unfold docs_of. destruct (vector_store self); [apply Hsearch|]. by intros e [= <-]. }
  destruct (client_of P self api_key) as [client|e]; cbn [fst absorbed].
  - destruct (docs_of P self user_query) as [docs|e]; simpl.
    + destruct (assemble_messages user_profile docs history user_query) as [ms|e] eqn:Ha; simpl.
      * destruct (llm_invoke P client ms) as [r|e] eqn:Hr; simpl; [eauto|].
        rewrite (Hinvoke _ _ _ Hr). eauto.
      * rewrite (proj2 (own_failures_are_Exceptions P self user_query history
                          user_profile docs) _ Ha). eauto.
    + rewrite (Hdocs _ eq_refl). eauto.
  - rewrite (Hclient _ eq_refl). eauto.
Qed.


(** ** The life of the model client *)

Lemma chat_turns_app (turns turns' : list turn) (self : CareerChatbotRAG) :
  chat_turns (turns ++ turns') self = chat_turns turns' (chat_turns turns self).
Proof. revert self. induction turns as [|t turns IH]; intros self; simpl; auto. Qed.

(** C8. The client is [None] after construction and after the index was
    loaded.  A chat turn that finds no client builds one from the key it
    was given (and leaves [None] when the construction raises); a chat
    turn that finds a client keeps that very client, whatever the turn's
    provider, arguments and outcome, and so does any sequence of turns:
    once there is a client, the object never goes back to having none. *)
Theorem llm_client_lifecycle :
  (∀ I pd kb self, __init__ I pd kb = Ok self → llm self = None) ∧
  (∀ I fs self, llm (load_engine I fs self).2 = llm self) ∧
  (∀ I fs self, start_engine I fs = Ok self → llm self = None) ∧
  (∀ P q h key prof self,
      llm self = None → groq_failure P key = None →
      llm (chat P q h key prof self).2
      = Some {| groq_api_key := key; model_name := py "llama-3.1-8b-instant";
                temperature := (1 # 2)%Q |}) ∧
  (∀ P q h key prof self e,
      llm self = None → groq_failure P key = Some e →
      llm (chat P q h key prof self).2 = None) ∧
  (∀ P q h key prof self client,
      llm self = Some client → llm (chat P q h key prof self).2 = Some client) ∧
  (∀ turns self client,
      llm self = Some client → llm (chat_turns turns self) = Some client).
Proof.
  assert (Hinit : ∀ I pd kb self, __init__ I pd kb = Ok self → llm self = None).
  { intros I pd kb self. unfold __init__.
    destruct (embeddings_failure I); simpl; [discriminate|]. by intros [= <-]. }
  assert (Hload : ∀ I fs self, llm (load_engine I fs self).2 = llm self).
  { intros I fs self. unfold load_engine. run.
    destruct (bool_decide _); simpl.
    - destruct (chroma_open I _ _); simpl; [reflexivity|].
      destruct (_create_new_db I fs self); reflexivity.
    - destruct (_create_new_db I fs self); reflexivity. }
  assert (Hkeep : ∀ P q h key prof self client,
             llm self = Some client → llm (chat P q h key prof self).2 = Some client).
  { intros P q h key prof self client E. by rewrite chat_llm, E. }
  repeat split.
  - exact Hinit.
  - exact Hload.
  - intros I fs self. unfold start_engine.
    destruct (__init__ I _ _) as [self0|e] eqn:E0; simpl; [|discriminate].
    specialize (Hload I fs self0). apply Hinit in E0.
    destruct (load_engine I fs self0) as [[[]|e] self1]; [|discriminate].
    intros [= <-]. simpl in Hload. congruence.
  - intros P q h key prof self E F. rewrite chat_llm, E. unfold ChatGroq_new. by rewrite F.
  - intros P q h key prof self e E F. rewrite chat_llm, E. unfold ChatGroq_new. by rewrite F.
  - exact Hkeep.
  - intros turns. induction turns as [|t turns IH]; intros self client E; simpl; [exact E|].
    apply IH. by apply Hkeep.
Qed.

(** C8 on the reference provider: the first turn, though the service
    refuses its key, leaves a client built from that key, and two more
    turns with other keys and another provider keep it. *)
Lemma llm_client_lifecycle_witness :
  llm (chat_turns
         [ {| t_provider := Ref.provider; t_query := Sample.question; t_history := [];
              t_api_key := py "gsk_expired"; t_profile := Sample.analyst |};
           {| t_provider := Sample.offline; t_query := Sample.question; t_history := [];
              t_api_key := Ref.valid_key; t_profile := Sample.analyst |};
           {| t_provider := Ref.provider; t_query := Sample.question; t_history := [];
              t_api_key := Ref.valid_key; t_profile := ∅ |} ]
         Sample.engine)
  = Some {| groq_api_key := py "gsk_expired"; model_name := py "llama-3.1-8b-instant";
            temperature := (1 # 2)%Q |}.
Proof.
  destruct llm_client_lifecycle as (_ & _ & _ & Hfirst & _ & _ & Hlater).
  apply (Hlater [_; _] (chat Ref.provider Sample.question [] (py "gsk_expired")
                          Sample.analyst Sample.engine).2).
  apply Hfirst; reflexivity.
Defined.

(** ** Building the index *)

Section Ingestion_claims.
Variable I : Ingestion.

Lemma unhandled_extension_loads_nothing (file file_path : pystr) :
  endswith file (py ".pdf") = false → endswith file (py ".txt") = false →
  load_file I file file_path = Ok [].
Proof. unfold load_file. by intros -> ->. Qed.

Lemma load_files_nothing (kb : pystr) (files : list pystr) (documents : list Document) :
  Forall (yields_nothing I kb) files → load_files I kb files documents = documents.
Proof.
  intros Hall. revert documents.
  induction Hall as [|file files Hfile _ IH]; intros documents; simpl; [reflexivity|].
  destruct Hfile as [[Hpdf Htxt]|[[e He]|Hempty]].
  - rewrite (unhandled_extension_loads_nothing _ _ Hpdf Htxt), app_nil_r. apply IH.
  - rewrite He. apply IH.
  - rewrite Hempty, app_nil_r. apply IH.
Qed.

Lemma fallback_corpus_kept_whole :
  keeps_short_texts I → split_documents I 1000 100 fallback_corpus = fallback_corpus.
Proof.
  intros Hshort. unfold split_documents, fallback_corpus. simpl.
  rewrite !Hshort; [reflexivity| | | | | |];
    first [discriminate | vm_compute; lia | vm_compute; reflexivity].
Qed.

(** C3. No document is extracted when the knowledge base directory is
    missing, when it is empty, and when each of its files has an
    unhandled extension, fails to load or loads nothing.  Whenever no
    document is extracted, the list handed to the splitter is the
    built-in corpus of two documents, and the index is built from the
    chunks of that corpus.  With a splitter that keeps a short text as
    one chunk, the index built holds exactly the two built-in documents:
    it is not empty. *)
Theorem fallback_corpus_when_nothing_extracted (fs : filesystem) (self : CareerChatbotRAG) :
  let kb := knowledge_base_path self in
  (nodes fs !! kb = None → extract_documents I fs kb = Ok []) ∧
  (nodes fs !! kb = Some (Dir []) → extract_documents I fs kb = Ok []) ∧
  (∀ files, nodes fs !! kb = Some (Dir files) → Forall (yields_nothing I kb) files →
            extract_documents I fs kb = Ok []) ∧
  (extract_documents I fs kb = Ok [] →
   documents_to_index I fs kb = Ok fallback_corpus ∧
   length fallback_corpus = 2%nat ∧
   _create_new_db I fs self
     = Chroma_from_documents I (split_documents I 1000 100 fallback_corpus)
         (embeddings self) (persist_directory self) ∧
   (keeps_short_texts I →
    ∀ db, _create_new_db I fs self = Ok db →
          collection db = fallback_corpus ∧ collection db ≠ [])).
Proof.
  intros kb. subst kb.
  assert (Hdir : ∀ files, nodes fs !! knowledge_base_path self = Some (Dir files) →
                          Forall (yields_nothing I (knowledge_base_path self)) files →
                          extract_documents I fs (knowledge_base_path self) = Ok []).
  { intros files Hkb Hall. unfold extract_documents, os_listdir.
    rewrite bool_decide_is_Some_lookup, Hkb. simpl. by rewrite load_files_nothing. }
  split; [|split; [|split]].
  - intros Hkb. unfold extract_documents. by rewrite bool_decide_is_Some_lookup, Hkb.
  - intros Hkb. by apply (Hdir []).
  - exact Hdir.
  - intros Hnone.
    assert (Hdb : _create_new_db I fs self
                  = Chroma_from_documents I (split_documents I 1000 100 fallback_corpus)
                      (embeddings self) (persist_directory self)).
    { unfold _create_new_db. rewrite Hnone. simpl.
      destruct (Chroma_from_documents I _ _ _) as [db|e]; simpl; [|reflexivity].
      unfold try_result, persist. destruct (chroma_persist_failure I db); reflexivity. }
    split; [|split; [|split]].
    + unfold documents_to_index. by rewrite Hnone.
    + reflexivity.
    + exact Hdb.
    + intros Hshort db. rewrite Hdb, (fallback_corpus_kept_whole Hshort).
      unfold Chroma_from_documents.
      destruct (chroma_build_failure I _ _ _); [discriminate|].
      intros [= <-]. by split.
Qed.

End Ingestion_claims.

Lemma cut_text_keeps_short_texts (fs : filesystem) : keeps_short_texts (Ref.ingestion fs).
Proof.
  intros text Hne Hlen _. simpl. unfold Ref.cut_text.
  destruct text as [|c text]; [done|]. simpl length. cbn [Ref.windows].
  by rewrite bool_decide_eq_true_2.
Qed.

(** C3 on a knowledge base that holds a picture and an unreadable text
    file: the index is built and holds the two built-in documents. *)
Lemma fallback_corpus_when_nothing_extracted_witness :
  ∃ db, _create_new_db (Ref.ingestion Sample.barren_disk) Sample.barren_disk Sample.new_engine
        = Ok db ∧ collection db = fallback_corpus.
Proof.
  destruct (fallback_corpus_when_nothing_extracted (Ref.ingestion Sample.barren_disk)
              Sample.barren_disk Sample.new_engine) as (_ & _ & Hfiles & Hfallback).
  assert (Hnone : extract_documents (Ref.ingestion Sample.barren_disk) Sample.barren_disk
                    (knowledge_base_path Sample.new_engine) = Ok []).
  { apply (Hfiles [py "logo.png"; py "notes.txt"]); [reflexivity|].
    constructor; [left; split; reflexivity|].
    constructor; [right; left; eexists; reflexivity|].
    constructor. }
  destruct (Hfallback Hnone) as (_ & _ & Hdb & Hkept).
  exists {| collection := split_documents (Ref.ingestion Sample.barren_disk) 1000 100
                            fallback_corpus |}.
  split; [rewrite Hdb; reflexivity|].
  apply (Hkept (cut_text_keeps_short_texts _)). rewrite Hdb. reflexivity.
Defined.

(** ** The chat input *)

Lemma bind_ok {S A B} (m : M S A) (f : A → M S B) (s s' : S) (a : A) :
  m s = (Ok a, s') → (m ≫= f) s = f a s'.
Proof. unfold mbind, M_bind. by intros ->. Qed.

Lemma bind_raise {S A B} (m : M S A) (f : A → M S B) (s s' : S) (e : exn) :
  m s = (Raise e, s') → (m ≫= f) s = (Raise e, s').
Proof. unfold mbind, M_bind. by intros ->. Qed.

Lemma auto_name_spec (prompt : pystr) :
  ((length prompt ≤ 30)%nat → auto_name prompt = prompt) ∧
  ((30 < length prompt)%nat → auto_name prompt = take 30 prompt ++ py "...").
Proof.
  unfold auto_name. split; intros Hlen.
  - rewrite bool_decide_eq_false_2; [reflexivity|lia].
  - by rewrite bool_decide_eq_true_2.
Qed.

Section Chat_input.
Variables (J : JSON) (P : Provider).

Lemma alter_session_eq sid f w :
  alter_session sid f w =
  (Ok (), set_history {| sessions := alter f sid (sessions (history (state w)));
                         active_id := active_id (history (state w)) |} w).
Proof. reflexivity. Qed.

Lemma read_session_eq sid w :
  read_session sid w = (getitem (sessions (history (state w))) sid, w).
Proof. reflexivity. Qed.

(** The session stored under [sid] after a prompt was submitted: the
    prompt was appended to the session, renamed first if it had no
    message; the answer and the new time stamp follow unless [chat] was
    interrupted. *)
Lemma submit_prompt_session sid key prompt now_time now_full w s :
  sessions (history (state w)) !! sid = Some s →
  let named := if bool_decide (s_messages s = []) then rename (auto_name prompt) s else s in
  let asked := append_message (chat_message (py "user") prompt now_time) named in
  ∃ answered,
    sessions (history (state (submit_prompt J P sid key prompt now_time now_full w).2)) !! sid
    = Some answered ∧
    (answered = asked ∨
     ∃ response, answered = touch now_full
       (append_message (chat_message (py "assistant") response now_time) asked)).
Proof.
  intros Hs named asked. unfold submit_prompt.
  erewrite bind_ok; [|by rewrite read_session_eq; unfold getitem; rewrite Hs].
  set (w1 := ((if bool_decide (s_messages s = [])
               then alter_session sid (rename (auto_name prompt)) else mret ()) w).2).
  assert (H1 : (if bool_decide (s_messages s = [])
                then alter_session sid (rename (auto_name prompt)) else mret ()) w
               = (Ok (), w1)) by (subst w1; by destruct (bool_decide _)).
  assert (L1 : sessions (history (state w1)) !! sid = Some named).
  { subst w1 named. destruct (bool_decide _); simpl; [|exact Hs].
    by rewrite lookup_alter_eq, Hs. }
  erewrite bind_ok; [|exact H1].
  erewrite bind_ok; [|apply alter_session_eq].
  remember (set_history _ w1) as w2 eqn:Hw2.
  assert (L2 : sessions (history (state w2)) !! sid = Some asked).
  { rewrite Hw2. simpl. by rewrite lookup_alter_eq, L1. }
  clear Hw2.
  erewrite bind_ok; [|by rewrite read_session_eq; unfold getitem; rewrite L2].
  erewrite bind_ok; [|reflexivity].
  destruct (chat P prompt (all_but_last (s_messages asked)) key (profile (state w2))
              (rag (state w2))) as [[[response sources]|e] self'] eqn:Hchat.
  - erewrite bind_ok; [|unfold on_rag; by rewrite Hchat].
    cbv beta iota.
    erewrite bind_ok; [|apply alter_session_eq].
    erewrite bind_ok; [|apply alter_session_eq].
    erewrite bind_ok; [|reflexivity].
    unfold on_disk. destruct (save_json J HISTORY_PATH _ _) as [r fs]. simpl.
    rewrite !lookup_alter_eq, L2. simpl. eauto.
  - erewrite bind_raise; [|unfold on_rag; by rewrite Hchat].
    simpl. eauto.
Qed.

(** C7. When a prompt is submitted to a session without messages, the
    session takes the prompt as its name if the prompt has at most 30
    characters, and otherwise its first 30 characters followed by
    "..."; when the session already has messages its name stays, also
    after the answer was appended. *)
Theorem auto_rename_on_first_message (sid key prompt now_time now_full : pystr)
    (w : world) (s : session) :
  sessions (history (state w)) !! sid = Some s →
  ∃ s',
    sessions (history (state (submit_prompt J P sid key prompt now_time now_full w).2)) !! sid
    = Some s' ∧
    chat_message (py "user") prompt now_time ∈ s_messages s' ∧
    (s_messages s = [] → (length prompt ≤ 30)%nat → s_name s' = prompt) ∧
    (s_messages s = [] → (30 < length prompt)%nat →
     s_name s' = take 30 prompt ++ py "...") ∧
    (s_messages s ≠ [] → s_name s' = s_name s).
Proof.
  intros Hs.
  destruct (submit_prompt_session sid key prompt now_time now_full w s Hs)
    as (s' & Hs' & Hshape).
  exists s'. split; [exact Hs'|].
  assert (Hname : s_name s' = if bool_decide (s_messages s = [])
                              then auto_name prompt else s_name s).
  { destruct Hshape as [->|[response ->]]; simpl; by destruct (bool_decide _). }
  destruct (auto_name_spec prompt) as [Hshort Hlong].
  split; [|split; [|split]].
  - destruct Hshape as [->|[response ->]]; simpl; set_solver.
  - intros Hempty Hlen. by rewrite Hname, bool_decide_eq_true_2, Hshort.
  - intros Hempty Hlen. by rewrite Hname, bool_decide_eq_true_2, Hlong.
  - intros Hbusy. by rewrite Hname, bool_decide_eq_false_2.
Qed.

(** The page reaches [submit_prompt] when a prompt was typed and the key
    is set; without a key nothing is added to the session. *)
Lemma main_interface_submits (key prompt : pystr) (fresh : N) (now0 now_time now_full : pystr)
    (w : world) (sid : pystr) (s : session) :
  active_id (history (state w)) = Some sid → truthy sid = true →
  sessions (history (state w)) !! sid = Some s →
  truthy prompt = true →
  main_interface J P (Some key) fresh now0 (Some prompt) now_time now_full w
  = (if truthy key then submit_prompt J P sid key prompt now_time now_full w else (Ok (), w)) ∧
  main_interface J P None fresh now0 (Some prompt) now_time now_full w = (Ok (), w).
Proof.
  intros Ha Hsid Hs Hp. unfold main_interface.
  assert (He : ensure_active_session fresh now0 w = (Ok (), w)).
  { unfold ensure_active_session, needs_active_session. run. rewrite Ha, Hsid. simpl.
    rewrite bool_decide_eq_false_2; [reflexivity|]. by rewrite Hs. }
  split.
  - erewrite bind_ok; [|exact He]. erewrite bind_ok; [|reflexivity]. rewrite Ha.
    erewrite bind_ok; [|by rewrite read_session_eq; unfold getitem; rewrite Hs].
    rewrite Hp. by destruct (truthy key).
  - erewrite bind_ok; [|exact He]. erewrite bind_ok; [|reflexivity]. rewrite Ha.
    erewrite bind_ok; [|by rewrite read_session_eq; unfold getitem; rewrite Hs].
    by rewrite Hp.
Qed.

End Chat_input.

(** C7 on the fresh session of the sample store: the question of 43
    characters names the session by its first 30 characters and "...". *)
Lemma auto_rename_on_first_message_witness :
  ∃ s',
    sessions (history (state (submit_prompt RefJson.json Ref.provider (uuid_str 7)
                                Ref.valid_key Sample.question (py "10:01")
                                (py "2024-05-01 10:01:07") Sample.fresh_world).2))
      !! uuid_str 7 = Some s' ∧
    s_name s' = py "Should I learn Rust or Go for ...".
Proof.
  destruct (auto_rename_on_first_message RefJson.json Ref.provider (uuid_str 7)
              Ref.valid_key Sample.question (py "10:01") (py "2024-05-01 10:01:07")
              Sample.fresh_world (new_session (py "2024-05-01 10:00:00")))
    as (s' & Hs' & _ & _ & Hlong & _).
  - vm_compute. reflexivity.
  - exists s'. split; [exact Hs'|]. rewrite Hlong; [reflexivity|reflexivity|].
    vm_compute. lia.
Defined.

(** * Further properties of the code *)

(** ** Loading and building the index *)

Lemma create_new_db_eq (I : Ingestion) (fs : filesystem) (self : CareerChatbotRAG) :
  _create_new_db I fs self =
  (documents ← extract_documents I fs (knowledge_base_path self);
   Chroma_from_documents I (split_documents I 1000 100 (or_fallback documents))
     (embeddings self) (persist_directory self)).
Proof.
  unfold _create_new_db.
  destruct (extract_documents I fs (knowledge_base_path self)) as [documents|e];
    simpl; [|reflexivity].
  destruct (Chroma_from_documents I _ _ _) as [db|e]; simpl; [|reflexivity].
  unfold try_result, persist. destruct (chroma_persist_failure I db); reflexivity.
Qed.

Lemma load_engine_eq (I : Ingestion) (fs : filesystem) (self : CareerChatbotRAG) :
  load_engine I fs self =
  let rebuild := match _create_new_db I fs self with
                 | Ok db => (Ok (), set_vector_store db self)
                 | Raise e => (Raise e, self)
                 end in
  match nodes fs !! persist_directory self with
  | Some _ =>
      match chroma_open I (persist_directory self) (embeddings self) with
      | Ok db => (Ok (), set_vector_store db self)
      | Raise _ => rebuild
      end
  | None => rebuild
  end.
Proof.
  unfold load_engine. run. rewrite bool_decide_is_Some_lookup.
  destruct (nodes fs !! persist_directory self); simpl.
  - destruct (chroma_open I _ _); simpl; [reflexivity|].
    destruct (_create_new_db I fs self); reflexivity.
  - destruct (_create_new_db I fs self); reflexivity.
Qed.

(** X1. When a persisted index is there and opens, [load_engine] takes
    it and does not look at the knowledge base.  When opening it raises
    anything at all, [load_engine] does what it does without a persisted
    index: it rebuilds, and raises only what the rebuild raises. *)
Theorem load_engine_falls_back_to_rebuild (I : Ingestion) (fs : filesystem)
    (self : CareerChatbotRAG) :
  (∀ n db, nodes fs !! persist_directory self = Some n →
           chroma_open I (persist_directory self) (embeddings self) = Ok db →
           load_engine I fs self = (Ok (), set_vector_store db self)) ∧
  (∀ e, chroma_open I (persist_directory self) (embeddings self) = Raise e →
        load_engine I fs self =
        match _create_new_db I fs self with
        | Ok db => (Ok (), set_vector_store db self)
        | Raise e' => (Raise e', self)
        end) ∧
  (∀ e, (load_engine I fs self).1 = Raise e → _create_new_db I fs self = Raise e).
Proof.
  rewrite load_engine_eq. cbv zeta. split; [|split].
  - intros n db -> ->. reflexivity.
  - intros e ->. by destruct (nodes fs !! persist_directory self).
  - intros e.
    destruct (nodes fs !! persist_directory self);
      [destruct (chroma_open I _ _); [discriminate|]|];
      destruct (_create_new_db I fs self); simpl; congruence.
Qed.

Lemma load_engine_falls_back_to_rebuild_witness :
  load_engine (Ref.ingestion Sample.barren_disk)
    (set_node default_persist_directory (Dir []) Sample.barren_disk) Sample.new_engine
  = (Ok (), set_vector_store {| collection := fallback_corpus |} Sample.new_engine).
Proof.
  rewrite (proj1 (proj2 (load_engine_falls_back_to_rebuild
                           (Ref.ingestion Sample.barren_disk)
                           (set_node default_persist_directory (Dir []) Sample.barren_disk)
                           Sample.new_engine))
             (Exception "ValueError" default_persist_directory) eq_refl).
  vm_compute. reflexivity.
Defined.

(** X2. A failure of [db.persist()] is of no consequence: the index
    [_create_new_db] returns, and the exception it raises if any, are the
    same whatever [persist] does. *)
Theorem persist_failure_is_ignored (I : Ingestion) (f : Chroma → option exn)
    (fs : filesystem) (self : CareerChatbotRAG) :
  _create_new_db (with_persist_failure f I) fs self = _create_new_db I fs self.
Proof.
  assert (Hfiles : ∀ kb files documents,
             load_files (with_persist_failure f I) kb files documents
             = load_files I kb files documents).
  { intros kb files. induction files as [|file files IH]; intros documents; simpl;
      [reflexivity|].
    change (load_file (with_persist_failure f I)) with (load_file I).
    destruct (load_file I file _); apply IH. }
  rewrite !create_new_db_eq. unfold extract_documents.
  destruct (bool_decide _); [|reflexivity].
  destruct (os_listdir fs (knowledge_base_path self)) as [files|e]; [|reflexivity].
  simpl. by rewrite Hfiles.
Qed.

(** X3. A knowledge base path that names a regular file is not treated as
    an empty knowledge base: [os.listdir] stands outside the [try], so
    [_create_new_db] raises [NotADirectoryError], and so does
    [load_engine] when there is no persisted index, leaving the object
    without a vector store. *)
Theorem knowledge_base_file_is_an_error (I : Ingestion) (fs : filesystem)
    (self : CareerChatbotRAG) (r w : bool) (content : pystr) :
  nodes fs !! knowledge_base_path self = Some (File r w content) →
  _create_new_db I fs self = Raise (Exception "NotADirectoryError" (knowledge_base_path self)) ∧
  (nodes fs !! persist_directory self = None →
   load_engine I fs self
   = (Raise (Exception "NotADirectoryError" (knowledge_base_path self)), self)).
Proof.
  intros Hkb.
  assert (Hdb : _create_new_db I fs self
                = Raise (Exception "NotADirectoryError" (knowledge_base_path self))).
  { rewrite create_new_db_eq. unfold extract_documents, os_listdir.
    by rewrite bool_decide_is_Some_lookup, Hkb. }
  split; [exact Hdb|]. intros Hdir. by rewrite load_engine_eq, Hdir, Hdb.
Qed.

Lemma knowledge_base_file_is_an_error_witness :
  (load_engine (Ref.ingestion Sample.drive)
     (set_node default_knowledge_base_path (File true true (py "notes")) Sample.drive)
     Sample.new_engine).1
  = Raise (Exception "NotADirectoryError" default_knowledge_base_path).
Proof.
  rewrite (proj2 (knowledge_base_file_is_an_error (Ref.ingestion Sample.drive)
                    (set_node default_knowledge_base_path (File true true (py "notes"))
                       Sample.drive)
                    Sample.new_engine true true (py "notes") eq_refl) eq_refl).
  reflexivity.
Defined.

Lemma load_files_eq (I : Ingestion) (kb : pystr) (files : list pystr)
    (documents : list Document) :
  load_files I kb files documents = documents ++ (file ← files; contribution I kb file).
Proof.
  revert documents. induction files as [|file files IH]; intros documents; simpl.
  - by rewrite app_nil_r.
  - unfold contribution at 1.
    destruct (load_file I file (os_path_join kb file)) as [docs|e]; rewrite IH.
    + by rewrite <- app_assoc.
    + reflexivity.
Qed.

(** X4. Ingestion is best effort, file by file: the documents extracted
    are those of the files that load, one file after the other in the
    order of the listing, and a file whose loader raises costs no other
    file its documents. *)
Theorem ingestion_is_best_effort (I : Ingestion) (fs : filesystem) (kb : pystr)
    (files : list pystr) :
  nodes fs !! kb = Some (Dir files) →
  extract_documents I fs kb = Ok (file ← files; contribution I kb file) ∧
  (∀ file docs d, file ∈ files → load_file I file (os_path_join kb file) = Ok docs →
                  d ∈ docs → ∃ extracted, extract_documents I fs kb = Ok extracted ∧
                                          d ∈ extracted).
Proof.
  intros Hkb.
  assert (He : extract_documents I fs kb = Ok (file ← files; contribution I kb file)).
  { unfold extract_documents, os_listdir. rewrite bool_decide_is_Some_lookup, Hkb. simpl.
    by rewrite load_files_eq. }
  split; [exact He|]. intros file docs d Hfile Hload Hd. eexists. split; [exact He|].
  apply list_elem_of_bind. exists file. split; [|exact Hfile].
  unfold contribution. by rewrite Hload.
Qed.

Lemma ingestion_is_best_effort_witness :
  extract_documents (Ref.ingestion Tour.library_disk) Tour.library_disk
    default_knowledge_base_path
  = Ok [ {| page_content := py "Learn SQL first.";
            metadata := {[ py "source" := py "./knowledge_base/a.txt" ]} |};
         {| page_content := py "Then learn Python.";
            metadata := {[ py "source" := py "./knowledge_base/c.txt" ]} |} ].
Proof.
  rewrite (proj1 (ingestion_is_best_effort (Ref.ingestion Tour.library_disk)
                    Tour.library_disk default_knowledge_base_path
                    [py "a.txt"; py "b.pdf"; py "c.txt"] eq_refl)).
  vm_compute. reflexivity.
Defined.

(** ** More on [chat] *)

(** X5. Once the orchestrator has a client, the key handed to [chat] is
    not looked at: with any two keys the turn gives the same answer and
    leaves the same object. *)
Theorem later_api_keys_are_ignored (P : Provider) (user_query : pystr)
    (history : list message) (key key' : pystr) (user_profile : gmap pystr pystr)
    (self : CareerChatbotRAG) (client : ChatGroq) :
  llm self = Some client →
  chat P user_query history key user_profile self
  = chat P user_query history key' user_profile self.
Proof.
  intros Hllm. rewrite !chat_eq, !chat_body_eq. unfold client_of. by rewrite Hllm.
Qed.

Lemma later_api_keys_are_ignored_witness :
  chat Ref.provider Sample.question [] (py "gsk_expired") Sample.analyst Tour.active_engine
  = chat Ref.provider Sample.question [] Ref.valid_key Sample.analyst Tour.active_engine.
Proof.
  exact (later_api_keys_are_ignored Ref.provider Sample.question [] (py "gsk_expired")
           Ref.valid_key Sample.analyst Tour.active_engine _ eq_refl).
Defined.

(** X6. A chat turn never touches the index nor the configuration of the
    orchestrator: whatever its outcome, the object afterwards is the
    object before, or the object before with a client where it had none. *)
Theorem chat_changes_the_client_only (P : Provider) (user_query : pystr)
    (history : list message) (api_key : pystr) (user_profile : gmap pystr pystr)
    (self : CareerChatbotRAG) :
  let self' := (chat P user_query history api_key user_profile self).2 in
  (self' = self ∨ ∃ client, llm self = None ∧ self' = set_llm client self) ∧
  vector_store self' = vector_store self ∧
  persist_directory self' = persist_directory self ∧
  knowledge_base_path self' = knowledge_base_path self ∧
  embeddings self' = embeddings self.
Proof.
  intros self'. subst self'. rewrite chat_eq. cbn [snd]. unfold with_client.
  destruct (client_of P self api_key) as [client|e]; [|by auto].
  destruct (llm self) eqn:E; [by auto|]. split; [right; eauto|by auto].
Qed.

Lemma replay_history_lacks_content (history : list message) (messages : list lc_message) :
  Exists lacks_content history →
  replay_history history messages = Raise (Exception "KeyError" (py "'content'")).
Proof.
  intros Hex. revert messages.
  induction history as [|msg history IH]; intros messages; [by apply Exists_nil in Hex|].
  simpl. unfold replay_message at 1, getitem.
  destruct (decide (lacks_content msg)) as [[Hrole Hnone]|Hok].
  - rewrite Hnone. destruct Hrole as [-> | ->].
    + by rewrite bool_decide_eq_true_2.
    + rewrite bool_decide_eq_false_2 by discriminate. by rewrite bool_decide_eq_true_2.
  - apply Exists_cons in Hex as [Hmsg|Hrest]; [done|].
    repeat case_bool_decide; simpl;
      try (destruct (msg !! py "content") eqn:Hc; simpl; [|reflexivity]); by apply IH.
Qed.

(** X7. A stored user or assistant message without a ["content"] key
    makes the whole turn fail softly: with a client and the retrieval at
    hand, [chat] answers with the error text of the [KeyError], the quoted
    key, and no source, whatever the model would have said. *)
Theorem message_without_content_fails_softly (P : Provider) (user_query : pystr)
    (history : list message) (api_key : pystr) (user_profile : gmap pystr pystr)
    (self : CareerChatbotRAG) (client : ChatGroq) (docs : list Document) :
  Exists lacks_content history →
  client_of P self api_key = Ok client →
  docs_of P self user_query = Ok docs →
  (chat P user_query history api_key user_profile self).1
  = Ok (error_prefix ++ py "'content'", []).
Proof.
  intros Hex Hc Hd. rewrite chat_eq, chat_body_eq, Hc. cbn [fst]. rewrite Hd. simpl.
  unfold assemble_messages. by rewrite (replay_history_lacks_content _ _ Hex).
Qed.

Lemma message_without_content_fails_softly_witness :
  (chat Ref.provider Sample.question Tour.damaged_history Ref.valid_key Sample.analyst
     Sample.engine).1
  = Ok (error_prefix ++ py "'content'", []).
Proof.
  eapply (message_without_content_fails_softly Ref.provider Sample.question
            Tour.damaged_history Ref.valid_key Sample.analyst Sample.engine).
  - apply Exists_cons_tl, Exists_cons_hd. split; [left|]; reflexivity.
  - reflexivity.
  - reflexivity.
Defined.

(** X8. A turn on an orchestrator whose index was never loaded does not
    crash: it answers with the text of the [AttributeError] and no source.
    The client is built before the retrieval is tried, so the object keeps
    it for the next turn. *)
Theorem chat_without_index (P : Provider) (user_query : pystr) (history : list message)
    (api_key : pystr) (user_profile : gmap pystr pystr) (self : CareerChatbotRAG)
    (client : ChatGroq) :
  vector_store self = None →
  client_of P self api_key = Ok client →
  (chat P user_query history api_key user_profile self).1
  = Ok (error_prefix ++ py "'NoneType' object has no attribute 'similarity_search'", []) ∧
  llm (chat P user_query history api_key user_profile self).2 = Some client.
Proof.
  intros Hvs Hc. rewrite chat_eq, chat_body_eq, Hc. cbn [fst snd].
  unfold docs_of. rewrite Hvs. split; [reflexivity|].
  unfold with_client, client_of in *.
  destruct (llm self) eqn:E; [congruence|reflexivity].
Qed.

Lemma chat_without_index_witness :
  llm (chat Ref.provider Sample.question [] Ref.valid_key Sample.analyst Sample.new_engine).2
  = Some {| groq_api_key := Ref.valid_key; model_name := py "llama-3.1-8b-instant";
            temperature := (1 # 2)%Q |}.
Proof.
  apply (chat_without_index Ref.provider Sample.question [] Ref.valid_key Sample.analyst
           Sample.new_engine); reflexivity.
Defined.

(** ** Names in the list of conversations *)

Lemma length_dots : length (py "...") = 3%nat.
Proof. reflexivity. Qed.

(** X9. The label of a conversation in the list never exceeds 25
    characters: a name of at most 24 characters is shown whole, a longer
    one (a name of exactly 25 included) is cut to its first 22 characters
    followed by "...".  Shortening a shortened name changes nothing. *)
Theorem display_name_is_bounded (name : pystr) :
  (length (display_name name) ≤ 25)%nat ∧
  ((length name ≤ 24)%nat → display_name name = name) ∧
  ((25 ≤ length name)%nat →
   display_name name = take 22 name ++ py "..." ∧ length (display_name name) = 25%nat) ∧
  display_name (display_name name) = display_name name.
Proof.
  unfold display_name.
  destruct (decide (length name < 25)%nat) as [Hlt|Hge].
  - rewrite !bool_decide_eq_true_2 by done.
    split; [lia|]. split; [done|]. split; [lia|reflexivity].
  - rewrite (bool_decide_eq_false_2 (length name < 25)%nat) by done.
    assert (Hlen : length (take 22 name ++ py "...") = 25%nat).
    { rewrite length_app, length_take, length_dots. lia. }
    split; [lia|]. split; [lia|]. split; [done|].
    rewrite bool_decide_eq_false_2 by lia.
    by rewrite take_app_le, take_take by (rewrite length_take; lia).
Qed.

Lemma display_name_is_bounded_witness :
  display_name (py "Switching from accounting to data analysis")
  = py "Switching from account...".
Proof.
  assert (Hlong : (25 ≤ length (py "Switching from accounting to data analysis"))%nat)
    by (vm_compute; lia).
  rewrite (proj1 (proj1 (proj2 (proj2 (display_name_is_bounded
             (py "Switching from accounting to data analysis")))) Hlong)).
  reflexivity.
Defined.

(** X10. The name a first prompt gives to a session has at most 33
    characters and starts with the first 30 characters of the prompt; it
    is empty only for an empty prompt.  In the list of conversations the
    cut at 30 is never seen: the label of a session named after a prompt
    is the label of the prompt itself. *)
Theorem auto_name_then_display_name (prompt : pystr) :
  (length (auto_name prompt) ≤ 33)%nat ∧
  take 30 (auto_name prompt) = take 30 prompt ∧
  (auto_name prompt = [] → prompt = []) ∧
  display_name (auto_name prompt) = display_name prompt.
Proof.
  unfold auto_name.
  destruct (decide (30 < length prompt)%nat) as [Hlong|Hshort].
  - rewrite bool_decide_eq_true_2 by done.
    assert (Hlen : length (take 30 prompt ++ py "...") = 33%nat).
    { rewrite length_app, length_take, length_dots. lia. }
    split; [lia|]. split; [|split].
    + by rewrite take_app_le, take_take by (rewrite length_take; lia).
    + intros Hnil. rewrite Hnil in Hlen. discriminate.
    + unfold display_name. rewrite !bool_decide_eq_false_2 by lia.
      by rewrite take_app_le, take_take by (rewrite length_take; lia).
  - rewrite bool_decide_eq_false_2 by done.
    split; [lia|]. split; [reflexivity|]. split; [done|reflexivity].
Qed.

(** ** The list of past conversations *)

Lemma str_le_refl (a : pystr) : str_le a a = true.
Proof. induction a as [|x a IH]; simpl; [reflexivity|]. by rewrite N.ltb_irrefl. Qed.

Lemma str_le_total (a b : pystr) : str_le a b = false → str_le b a = true.
Proof.
  revert b. induction a as [|x a IH]; intros [|y b]; simpl; try done.
  destruct (x <? y) eqn:Hxy; [discriminate|].
  destruct (y <? x) eqn:Hyx; [reflexivity|]. apply IH.
Qed.

Lemma insert_by_time_perm (item : pystr * session) (l : list (pystr * session)) :
  insert_by_time item l ≡ₚ item :: l.
Proof.
  induction l as [|item' l IH]; simpl; [reflexivity|].
  destruct (str_le _ _); [reflexivity|]. rewrite IH. apply Permutation_swap.
Qed.

Lemma insert_by_time_sorted (item : pystr * session) (l : list (pystr * session)) :
  Sorted not_older l → Sorted not_older (insert_by_time item l).
Proof.
  induction 1 as [|item' l Hsorted IH Hhd]; simpl; [by repeat constructor|].
  destruct (str_le (s_time item'.2) (s_time item.2)) eqn:Hle.
  - constructor; [by constructor|]. by constructor.
  - constructor; [exact IH|].
    destruct Hhd as [|item'' l Hrel]; simpl.
    + constructor. by apply str_le_total.
    + destruct (str_le (s_time item''.2) (s_time item.2)); constructor;
        [by apply str_le_total|exact Hrel].
Qed.

Lemma insert_by_time_filter (t : pystr) (item : pystr * session)
    (l : list (pystr * session)) :
  filter (λ it, s_time it.2 = t) (insert_by_time item l)
  = filter (λ it, s_time it.2 = t) (item :: l).
Proof.
  induction l as [|item' l IH]; simpl; [reflexivity|].
  destruct (str_le (s_time item'.2) (s_time item.2)) eqn:Hle; [reflexivity|].
  rewrite !filter_cons in *. rewrite IH.
  destruct (decide (s_time item.2 = t)) as [Ht|Ht];
    destruct (decide (s_time item'.2 = t)) as [Ht'|Ht']; try reflexivity.
  rewrite Ht, Ht', str_le_refl in Hle. discriminate.
Qed.

(** X11. The list of past conversations shows each stored session that
    has messages exactly once and no session without messages (a
    conversation just opened is absent until its first prompt); the
    sessions come latest first by their time stamp, and sessions with the
    same time stamp keep the order of the store. *)
Theorem past_conversations_listing (items : list (pystr * session)) :
  let listed := sorted_sessions (history_sessions items) in
  listed ≡ₚ history_sessions items ∧
  (∀ item, item ∈ listed ↔ item ∈ items ∧ s_messages item.2 ≠ []) ∧
  Sorted not_older listed ∧
  (∀ t, filter (λ it, s_time it.2 = t) listed
        = filter (λ it, s_time it.2 = t) (history_sessions items)).
Proof.
  intros listed. subst listed. unfold sorted_sessions.
  assert (Hperm : ∀ l, foldr insert_by_time [] l ≡ₚ l).
  { induction l as [|x l IH]; simpl; [reflexivity|]. by rewrite insert_by_time_perm, IH. }
  split; [apply Hperm|]. split; [|split].
  - intros item. rewrite (Hperm _). unfold history_sessions.
    rewrite list_elem_of_filter. tauto.
  - induction (history_sessions items) as [|x l IH]; simpl; [constructor|].
    by apply insert_by_time_sorted.
  - intros t. induction (history_sessions items) as [|x l IH]; simpl; [reflexivity|].
    rewrite insert_by_time_filter, !filter_cons, IH. reflexivity.
Qed.

Lemma past_conversations_listing_witness :
  ((py "id-new", new_session (py "2024-05-02 10:00:00"))
     ∉ sorted_sessions (history_sessions Tour.items)) ∧
  ((Sample.busy_id, Sample.busy_session) ∈ sorted_sessions (history_sessions Tour.items)).
Proof.
  split.
  - intros Hin.
    apply (proj1 (proj2 (past_conversations_listing Tour.items))) in Hin as [_ Hne].
    by apply Hne.
  - apply (proj1 (proj2 (past_conversations_listing Tour.items))). split; [|done].
    apply list_elem_of_In. right. right. left. reflexivity.
Defined.

(** ** A prompt, step by step *)

Lemma alter_to_insert (m : gmap pystr session) (sid : pystr) (f : session → session)
    (s : session) :
  m !! sid = Some s → alter f sid m = <[sid := f s]> m.
Proof.
  intros Hs. apply map_eq. intros k. destruct (decide (k = sid)) as [->|Hne].
  - by rewrite lookup_alter_eq, lookup_insert_eq, Hs.
  - by rewrite lookup_alter_ne, lookup_insert_ne.
Qed.

Lemma all_but_last_snoc {A} (l : list A) (x : A) : all_but_last (l ++ [x]) = l.
Proof.
  unfold all_but_last. rewrite length_app. simpl.
  replace (length l + 1 - 1)%nat with (length l) by lia. apply take_app_length.
Qed.

Section Prompt.
Variables (J : JSON) (P : Provider).

(** What [submit_prompt] leaves, given the outcome of the chat turn it
    runs on the messages the session had before the prompt. *)
Lemma submit_prompt_eq sid key prompt now_time now_full w s :
  sessions (history (state w)) !! sid = Some s →
  let h := history (state w) in
  let turn := chat P prompt (s_messages s) key (profile (state w)) (rag (state w)) in
  let store (s' : session) :=
    {| sessions := <[sid := s']> (sessions h); active_id := active_id h |} in
  submit_prompt J P sid key prompt now_time now_full w =
  match turn.1 with
  | Ok (response, _) =>
      let h' := store (answered prompt response now_time now_full s) in
      let saved := save_json J HISTORY_PATH (history_to_py h') (disk w) in
      (saved.1, {| state := {| history := h'; profile := profile (state w); rag := turn.2 |};
                   disk := saved.2 |})
  | Raise e =>
      (Raise e, {| state := {| history := store (asked prompt now_time s);
                               profile := profile (state w); rag := turn.2 |};
                   disk := disk w |})
  end.
Proof.
  intros Hs h turn store. subst h turn store. destruct w as [[h p r] d]. simpl in *.
  unfold submit_prompt.
  erewrite bind_ok; [|by rewrite read_session_eq; unfold getitem; simpl; rewrite Hs].
  set (named := if bool_decide (s_messages s = []) then rename (auto_name prompt) s else s).
  erewrite (bind_ok _ _ _ {| state := {| history := {| sessions := <[sid := named]> (sessions h);
                                                       active_id := active_id h |};
                                         profile := p; rag := r |}; disk := d |});
    [|subst named; destruct (bool_decide (s_messages s = [])); simpl;
      [rewrite alter_session_eq; simpl; by rewrite (alter_to_insert _ _ _ _ Hs)
      |by rewrite insert_id; [destruct h|]]].
  erewrite bind_ok; [|apply alter_session_eq]. simpl.
  rewrite alter_insert_eq.
  assert (Hasked : append_message (chat_message (py "user") prompt now_time) named
                   = asked prompt now_time s).
  { subst named. unfold asked, append_message.
    by destruct (bool_decide (s_messages s = [])). }
  rewrite Hasked.
  erewrite bind_ok; [|by rewrite read_session_eq; unfold getitem; simpl;
                       rewrite lookup_insert_eq].
  erewrite bind_ok; [|reflexivity]. simpl.
  rewrite all_but_last_snoc. unfold on_rag at 1.
  unfold mbind at 1, M_bind at 1. simpl.
  destruct (chat P prompt (s_messages s) key p r) as [[[response sources]|e] self']; simpl;
    [|reflexivity].
  erewrite bind_ok; [|apply alter_session_eq]. simpl.
  erewrite bind_ok; [|apply alter_session_eq]. simpl.
  erewrite bind_ok; [|reflexivity]. simpl.
  rewrite !alter_insert_eq.
  unfold on_disk. simpl.
  replace (touch now_full _) with (answered prompt response now_time now_full s).
  - destruct (save_json J HISTORY_PATH _ d); reflexivity.
  - unfold answered, touch, append_message, asked. simpl. by rewrite <- app_assoc.
Qed.

End Prompt.

Section Prompt_properties.
Variables (J : JSON) (P : Provider).

(** X12. A prompt is sent to the model once: the history handed to
    [chat] is the list of messages the session had before the prompt, the
    prompt itself going as the query.  When the turn returns, the session
    holds its former messages followed by the prompt and the answer, both
    stamped with the same time, and its time stamp is renewed; the other
    sessions, the active pointer and the profile are as before, and the
    orchestrator is the one the turn left. *)
Theorem prompt_and_answer_are_recorded (sid key prompt now_time now_full : pystr)
    (w : world) (s : session) (response : pystr) (sources : list Document)
    (self' : CareerChatbotRAG) :
  sessions (history (state w)) !! sid = Some s →
  chat P prompt (s_messages s) key (profile (state w)) (rag (state w))
    = (Ok (response, sources), self') →
  let w' := (submit_prompt J P sid key prompt now_time now_full w).2 in
  sessions (history (state w')) !! sid
    = Some {| s_name := if bool_decide (s_messages s = []) then auto_name prompt
                        else s_name s;
              s_messages := s_messages s ++ [chat_message (py "user") prompt now_time;
                                             chat_message (py "assistant") response now_time];
              s_time := now_full |} ∧
  (∀ sid', sid' ≠ sid →
           sessions (history (state w')) !! sid' = sessions (history (state w)) !! sid') ∧
  active_id (history (state w')) = active_id (history (state w)) ∧
  profile (state w') = profile (state w) ∧
  rag (state w') = self'.
Proof.
  intros Hs Hturn w'. subst w'.
  rewrite (submit_prompt_eq J P sid key prompt now_time now_full w s Hs).
  cbv zeta. rewrite Hturn. simpl.
  split; [apply lookup_insert_eq|]. split; [|done].
  intros sid' Hne. by apply lookup_insert_ne.
Qed.

(** X13. A turn that fails is recorded like one that succeeds: when a
    step of the turn raises an instance of [Exception], the error text
    [chat] returns is stored in the session as the answer of the
    assistant, after the prompt, and is part of the history from then
    on. *)
Theorem error_text_is_stored_as_answer (sid key prompt now_time now_full : pystr)
    (w : world) (s : session) (e : exn) :
  sessions (history (state w)) !! sid = Some s →
  step_fails P (rag (state w)) prompt (s_messages s) key (profile (state w)) e →
  isinstance_Exception e = true →
  ∃ s', sessions (history (state (submit_prompt J P sid key prompt now_time now_full w).2))
          !! sid = Some s' ∧
        s_messages s'
        = s_messages s ++ [chat_message (py "user") prompt now_time;
                           chat_message (py "assistant") (error_prefix ++ str_exn e) now_time].
Proof.
  intros Hs Hfail Hexc.
  rewrite (submit_prompt_eq J P sid key prompt now_time now_full w s Hs). cbv zeta.
  rewrite chat_eq. cbn [fst]. rewrite (step_fails_raises _ _ _ _ _ _ _ Hfail).
  cbn [absorbed]. rewrite Hexc. simpl. rewrite lookup_insert_eq. eauto.
Qed.

(** X14. Submitting a prompt only ever adds: whatever the outcome of the
    turn and of the save, every stored session is still stored, its
    former messages are the first messages it has afterwards, and a
    session other than the one prompted is exactly as it was. *)
Theorem sessions_are_append_only (sid key prompt now_time now_full : pystr)
    (w : world) (s : session) :
  sessions (history (state w)) !! sid = Some s →
  let w' := (submit_prompt J P sid key prompt now_time now_full w).2 in
  dom (sessions (history (state w'))) = dom (sessions (history (state w))) ∧
  ∀ sid' s', sessions (history (state w)) !! sid' = Some s' →
    ∃ s'', sessions (history (state w')) !! sid' = Some s'' ∧
           s_messages s' `prefix_of` s_messages s'' ∧
           (sid' ≠ sid → s'' = s').
Proof.
  intros Hs w'. subst w'.
  rewrite (submit_prompt_eq J P sid key prompt now_time now_full w s Hs). cbv zeta.
  assert (Hdom : ∀ x, dom (<[sid := x]> (sessions (history (state w))))
                      = dom (sessions (history (state w)))).
  { intros x. rewrite dom_insert_L. pose proof (elem_of_dom_2 _ _ _ Hs) as Hin.
    apply subseteq_union_1_L. by apply singleton_subseteq_l. }
  destruct (chat P prompt (s_messages s) key (profile (state w)) (rag (state w))).1
    as [[response sources]|e]; simpl; (split; [apply Hdom|]);
    intros sid' s' Hs'; (destruct (decide (sid' = sid)) as [->|Hne];
      [rewrite lookup_insert_eq; assert (s' = s) as -> by congruence;
       eexists; split; [reflexivity|]; split; [by apply prefix_app_r|done]
      |rewrite lookup_insert_ne by done; eauto]).
Qed.

(** X15. After a turn that completed, the history file holds the
    serialised history that is in memory; read back with [load_json] at
    the next start, with a [json.load] that inverts [json.dump] on it, it
    gives that history and not the default. *)
Theorem completed_turn_is_on_disk (sid key prompt now_time now_full : pystr)
    (w : world) (s : session) (default : pyval) :
  sessions (history (state w)) !! sid = Some s →
  (submit_prompt J P sid key prompt now_time now_full w).1 = Ok () →
  let w' := (submit_prompt J P sid key prompt now_time now_full w).2 in
  let data := history_to_py (history (state w')) in
  holds_dump J (disk w') HISTORY_PATH data ∧
  (readable_at (disk w) HISTORY_PATH = true →
   json_load J (json_dump J data 4).1 = Ok data →
   load_json J HISTORY_PATH default (disk w') = (Ok data, disk w')).
Proof.
  intros Hs. rewrite (submit_prompt_eq J P sid key prompt now_time now_full w s Hs). cbv zeta.
  destruct (chat P prompt (s_messages s) key (profile (state w)) (rag (state w))).1
    as [[response sources]|e]; simpl; [|discriminate].
  rewrite save_json_eq.
  destruct (writable_at (disk w) HISTORY_PATH) eqn:W.
  - simpl. intros Hok. split.
    + unfold holds_dump, saved_file. simpl. rewrite lookup_insert_eq.
      destruct (nodes (disk w) !! HISTORY_PATH) as [[|r wr c]|]; eauto.
    + intros Hread Hcodec. rewrite load_json_eq. simpl. rewrite lookup_insert_eq.
      unfold saved_file, readable_at in *.
      destruct (nodes (disk w) !! HISTORY_PATH) as [[|r wr c]|]; try discriminate.
      * subst r. by rewrite Hcodec.
      * by rewrite Hcodec.
  - destruct (open_w_fails _ _ W) as [class E]. rewrite E. discriminate.
Qed.

End Prompt_properties.

Lemma prompt_and_answer_are_recorded_witness :
  ∃ s', sessions (history (state (submit_prompt RefJson.json Ref.provider Sample.busy_id
                                    Ref.valid_key Sample.question (py "10:01")
                                    (py "2024-05-01 10:01:07") Sample.busy_world).2))
          !! Sample.busy_id = Some s' ∧
        length (s_messages s') = 4%nat ∧ s_name s' = py "Data careers".
Proof.
  destruct (prompt_and_answer_are_recorded RefJson.json Ref.provider Sample.busy_id
              Ref.valid_key Sample.question (py "10:01") (py "2024-05-01 10:01:07")
              Sample.busy_world Sample.busy_session (py "Consider a data analyst role.")
              (take 3 fallback_corpus)
              (set_llm {| groq_api_key := Ref.valid_key;
                          model_name := py "llama-3.1-8b-instant";
                          temperature := (1 # 2)%Q |} Sample.engine))
    as (Hs' & _).
  - vm_compute. reflexivity.
  - vm_compute. reflexivity.
  - eexists. split; [exact Hs'|]. split; reflexivity.
Defined.

Lemma error_text_is_stored_as_answer_witness :
  ∃ s', sessions (history (state (submit_prompt RefJson.json Sample.offline Sample.busy_id
                                    Ref.valid_key Sample.question (py "10:01")
                                    (py "2024-05-01 10:01:07") Sample.busy_world).2))
          !! Sample.busy_id = Some s' ∧
        last (s_messages s')
        = Some (chat_message (py "assistant") (error_prefix ++ py "Connection error.")
                  (py "10:01")).
Proof.
  destruct (error_text_is_stored_as_answer RefJson.json Sample.offline Sample.busy_id
              Ref.valid_key Sample.question (py "10:01") (py "2024-05-01 10:01:07")
              Sample.busy_world Sample.busy_session
              (Exception "APIConnectionError" (py "Connection error.")))
    as (s' & Hs' & Hm).
  - vm_compute. reflexivity.
  - eapply model_call_fails; reflexivity.
  - reflexivity.
  - exists s'. split; [exact Hs'|]. rewrite Hm. reflexivity.
Defined.

Lemma sessions_are_append_only_witness :
  dom (sessions (history (state (submit_prompt RefJson.json Sample.offline Sample.busy_id
                                   Ref.valid_key Sample.question (py "10:01")
                                   (py "2024-05-01 10:01:07") Sample.busy_world).2)))
  = dom (sessions (history (state Sample.busy_world))).
Proof.
  apply (sessions_are_append_only RefJson.json Sample.offline Sample.busy_id Ref.valid_key
           Sample.question (py "10:01") (py "2024-05-01 10:01:07") Sample.busy_world
           Sample.busy_session).
  vm_compute. reflexivity.
Defined.

Lemma completed_turn_is_on_disk_witness :
  ∃ data,
    load_json RefJson.json HISTORY_PATH startup_history_default
      (disk (submit_prompt RefJson.json Ref.provider Sample.busy_id Ref.valid_key
               Sample.question (py "10:01") (py "2024-05-01 10:01:07")
               Sample.busy_world).2)
    = (Ok data,
       disk (submit_prompt RefJson.json Ref.provider Sample.busy_id Ref.valid_key
               Sample.question (py "10:01") (py "2024-05-01 10:01:07")
               Sample.busy_world).2) ∧
    data ≠ startup_history_default.
Proof.
  destruct (completed_turn_is_on_disk RefJson.json Ref.provider Sample.busy_id
              Ref.valid_key Sample.question (py "10:01") (py "2024-05-01 10:01:07")
              Sample.busy_world Sample.busy_session startup_history_default)
    as (_ & Hload).
  - vm_compute. reflexivity.
  - vm_compute. reflexivity.
  - eexists. split.
    + apply Hload; [reflexivity|]. vm_compute. reflexivity.
    + vm_compute. discriminate.
Defined.

(** ** The session store across the handlers *)

Lemma ensure_active_session_eq (fresh : N) (now : pystr) (w : world) :
  ensure_active_session fresh now w =
  (Ok (), if needs_active_session (history (state w))
          then set_history (with_new_session (uuid_str fresh) now (history (state w))) w
          else w).
Proof.
  unfold ensure_active_session. run.
  by destruct (needs_active_session (history (state w))).
Qed.

Lemma needs_active_session_spec (h : history_store) :
  needs_active_session h = false ↔ active_valid h.
Proof.
  unfold needs_active_session, active_valid. split.
  - destruct (active_id h) as [a|]; [|discriminate].
    intros Hb. apply orb_false_elim in Hb as [Ht Hin].
    apply negb_false_iff in Ht. apply bool_decide_eq_false_1 in Hin.
    destruct (sessions h !! a) as [s|] eqn:E; [|done]. eauto.
  - intros (a & s & -> & Ht & Hs). rewrite Ht. simpl.
    apply bool_decide_eq_false_2. by rewrite Hs.
Qed.

Lemma with_new_session_valid (fresh : N) (now : pystr) (h : history_store) :
  active_valid (with_new_session (uuid_str fresh) now h).
Proof.
  exists (uuid_str fresh), (new_session now).
  split; [reflexivity|]. split; [apply uuid_str_truthy|apply lookup_insert_eq].
Qed.

Section Store.
Variables (J : JSON) (P : Provider).

Lemma select_session_eq (sid : pystr) (w : world) :
  select_session J sid w =
  let h' := {| sessions := sessions (history (state w)); active_id := Some sid |} in
  let saved := save_json J HISTORY_PATH (history_to_py h') (disk w) in
  (match saved.1 with Ok _ => Raise rerun_signal | Raise e => Raise e end,
   set_disk saved.2 (set_history h' w)).
Proof.
  unfold select_session, on_disk. run.
  destruct (save_json J HISTORY_PATH _ (disk w)) as [[[]|e] fs]; reflexivity.
Qed.

(** What the main interface does, given the world [w1] that
    [ensure_active_session] leaves and its active session [sid]. *)
Lemma main_interface_eq (api_key : option pystr) (fresh : N) (now0 : pystr)
    (chat_input : option pystr) (now_time now_full : pystr) (w : world) :
  ∃ sid s,
    active_id (history (state (ensure_active_session fresh now0 w).2)) = Some sid ∧
    sessions (history (state (ensure_active_session fresh now0 w).2)) !! sid = Some s ∧
    main_interface J P api_key fresh now0 chat_input now_time now_full w =
    match chat_input, api_key with
    | Some prompt, Some key =>
        if truthy prompt && truthy key
        then submit_prompt J P sid key prompt now_time now_full
               (ensure_active_session fresh now0 w).2
        else (Ok (), (ensure_active_session fresh now0 w).2)
    | _, _ => (Ok (), (ensure_active_session fresh now0 w).2)
    end.
Proof.
  assert (Hvalid : active_valid (history (state (ensure_active_session fresh now0 w).2))).
  { rewrite ensure_active_session_eq. simpl.
    destruct (needs_active_session (history (state w))) eqn:E.
    - apply with_new_session_valid.
    - by apply needs_active_session_spec. }
  destruct Hvalid as (sid & s & Ha & _ & Hs). exists sid, s. split; [exact Ha|].
  split; [exact Hs|]. unfold main_interface.
  erewrite bind_ok; [|by rewrite ensure_active_session_eq].
  rewrite ensure_active_session_eq in Ha, Hs. simpl in Ha, Hs.
  rewrite ensure_active_session_eq. simpl.
  erewrite bind_ok; [|reflexivity]. rewrite Ha.
  erewrite bind_ok; [|by rewrite read_session_eq; unfold getitem; rewrite Hs].
  destruct chat_input as [prompt|]; [|by destruct api_key].
  destruct (truthy prompt); simpl; [|by destruct api_key].
  destruct api_key as [key|]; [|reflexivity]. by destruct (truthy key).
Qed.

(** X16. The active pointer always ends on a stored session: after the
    main interface has run, after "New Conversation", and after a click
    on the button of a stored session, the pointer is a non-empty id under
    which the store has a session, whatever the store was before and
    whatever failed on the way. *)
Theorem active_pointer_stays_valid (w : world) :
  (∀ fresh now, active_valid (history (state (ensure_active_session fresh now w).2))) ∧
  (∀ uuid4 now, active_valid (history (state (new_conversation J uuid4 now w).2))) ∧
  (∀ api_key fresh now0 chat_input now_time now_full,
      active_valid (history (state (main_interface J P api_key fresh now0 chat_input
                                      now_time now_full w).2))) ∧
  (∀ sid s, truthy sid = true → sessions (history (state w)) !! sid = Some s →
            active_valid (history (state (select_session J sid w).2))).
Proof.
  assert (Hensure : ∀ fresh now,
             active_valid (history (state (ensure_active_session fresh now w).2))).
  { intros fresh now. rewrite ensure_active_session_eq. simpl.
    destruct (needs_active_session (history (state w))) eqn:E.
    - apply with_new_session_valid.
    - by apply needs_active_session_spec. }
  split; [exact Hensure|]. split; [|split].
  - intros uuid4 now. rewrite new_conversation_eq.
    destruct (active_chat_is_empty (history (state w))) eqn:E; simpl.
    + apply active_chat_is_empty_spec in E as (a & s & Ha & Hne & Hs & _).
      exists a, s. repeat split; try done. by destruct a.
    + apply with_new_session_valid.
  - intros api_key fresh now0 chat_input now_time now_full.
    destruct (main_interface_eq api_key fresh now0 chat_input now_time now_full w)
      as (sid & s & Ha & Hs & ->).
    specialize (Hensure fresh now0).
    assert (Hsubmit : ∀ key prompt,
               active_valid (history (state (submit_prompt J P sid key prompt now_time now_full
                                               (ensure_active_session fresh now0 w).2).2))).
    { intros key prompt. rewrite (submit_prompt_eq J P _ _ _ _ _ _ s Hs). cbv zeta.
      destruct Hensure as (a & s0 & Ha' & Ht & _).
      assert (a = sid) as -> by congruence.
      destruct (chat P prompt (s_messages s) key _ _).1 as [[response sources]|e];
        unfold active_valid; simpl; eexists sid, _; rewrite lookup_insert_eq; eauto. }
    destruct chat_input as [prompt|]; [|exact Hensure].
    destruct api_key as [key|]; [|exact Hensure].
    destruct (truthy prompt && truthy key); [apply Hsubmit|exact Hensure].
  - intros sid s Ht Hs. rewrite select_session_eq. simpl. exists sid, s. eauto.
Qed.

(** X17. Without a key, or without a prompt, the main interface stores no
    message and writes nothing: the disk is untouched, and the session
    state is changed at most by the session created on demand, which
    exists in memory only. *)
Theorem nothing_is_stored_without_key_or_prompt (api_key : option pystr) (fresh : N)
    (now0 : pystr) (chat_input : option pystr) (now_time now_full : pystr) (w : world) :
  from_option truthy false api_key = false ∨ from_option truthy false chat_input = false →
  main_interface J P api_key fresh now0 chat_input now_time now_full w
  = (Ok (), (ensure_active_session fresh now0 w).2) ∧
  disk (ensure_active_session fresh now0 w).2 = disk w ∧
  (active_valid (history (state w)) → (ensure_active_session fresh now0 w).2 = w).
Proof.
  intros Hmissing.
  destruct (main_interface_eq api_key fresh now0 chat_input now_time now_full w)
    as (sid & s & _ & _ & ->).
  split; [|split].
  - destruct chat_input as [prompt|]; [|reflexivity].
    destruct api_key as [key|]; [|reflexivity]. simpl in Hmissing.
    destruct Hmissing as [-> | ->]; [by rewrite andb_false_r|reflexivity].
  - rewrite ensure_active_session_eq. simpl.
    by destruct (needs_active_session (history (state w))).
  - intros Hvalid. apply needs_active_session_spec in Hvalid.
    by rewrite ensure_active_session_eq, Hvalid.
Qed.

End Store.

Lemma active_pointer_stays_valid_witness :
  active_valid (history (state (select_session RefJson.json Sample.busy_id
                                  Sample.fresh_world).2)).
Proof.
  apply (proj2 (proj2 (proj2 (active_pointer_stays_valid RefJson.json Ref.provider
                                Sample.fresh_world)))
           Sample.busy_id Sample.busy_session); reflexivity.
Defined.

Lemma nothing_is_stored_without_key_or_prompt_witness :
  main_interface RefJson.json Ref.provider None 9 (py "2024-05-01 10:05:00")
    (Some Sample.question) (py "10:05") (py "2024-05-01 10:05:01") Sample.busy_world
  = (Ok (), Sample.busy_world).
Proof.
  destruct (nothing_is_stored_without_key_or_prompt RefJson.json Ref.provider None 9
              (py "2024-05-01 10:05:00") (Some Sample.question) (py "10:05")
              (py "2024-05-01 10:05:01") Sample.busy_world (or_introl eq_refl))
    as (Hrun & _ & Hsame).
  rewrite Hrun, Hsame; [reflexivity|].
  exists Sample.busy_id, Sample.busy_session. repeat split.
Defined.

(** ** The profile and the credential *)

Lemma paths_differ : PROFILE_PATH ≠ HISTORY_PATH.
Proof. discriminate. Qed.

(** X18. "Save Profile" replaces the profile by the three values of the
    form, and these reach the model verbatim: the profile line of the next
    system prompt shows them as typed, an empty field as empty; the
    placeholders stand for missing keys only.  The save leaves the history
    file alone; when it succeeds the profile file holds the new profile. *)
Theorem saved_profile_is_sent_verbatim (J : JSON) (skills edu interest : pystr) (w : world) :
  let w' := (save_profile J skills edu interest w).2 in
  profile_context (profile (state w'))
  = py "User Profile: Skills(" ++ skills ++ py "), Education(" ++ edu
    ++ py "), Interest(" ++ interest ++ py ")." ∧
  profile_context ∅ = py "User Profile: Skills(Unknown), Education(Unknown), Interest(General)." ∧
  history (state w') = history (state w) ∧
  rag (state w') = rag (state w) ∧
  nodes (disk w') !! HISTORY_PATH = nodes (disk w) !! HISTORY_PATH ∧
  (writable_at (disk w) PROFILE_PATH = true →
   (json_dump J (profile_to_py (profile (state w'))) 4).2 = None →
   (save_profile J skills edu interest w).1 = Ok () ∧
   holds_dump J (disk w') PROFILE_PATH (profile_to_py (profile (state w')))).
Proof.
  unfold save_profile, on_disk. run. rewrite save_json_eq.
  destruct (writable_at (disk w) PROFILE_PATH) eqn:W; simpl.
  - split; [reflexivity|]. split; [reflexivity|]. split; [reflexivity|].
    split; [reflexivity|]. split.
    + apply lookup_insert_ne, paths_differ.
    + intros _ Hdump. rewrite Hdump. split; [reflexivity|].
      unfold holds_dump, saved_file. simpl. rewrite lookup_insert_eq.
      destruct (nodes (disk w) !! PROFILE_PATH) as [[|r wr c]|]; eauto.
  - destruct (open_w_fails _ _ W) as [class E]. rewrite E. simpl.
    do 5 (split; [reflexivity|]). discriminate.
Qed.

Lemma saved_profile_is_sent_verbatim_witness :
  (save_profile RefJson.json (py "Python, SQL") (py "Graduate") [] Sample.busy_world).1 = Ok () ∧
  profile_context (profile (state (save_profile RefJson.json (py "Python, SQL")
                                     (py "Graduate") [] Sample.busy_world).2))
  = py "User Profile: Skills(Python, SQL), Education(Graduate), Interest().".
Proof.
  destruct (saved_profile_is_sent_verbatim RefJson.json (py "Python, SQL") (py "Graduate") []
              Sample.busy_world) as (Hctx & _ & _ & _ & _ & Hsave).
  split.
  - apply Hsave; [reflexivity|]. vm_compute. reflexivity.
  - rewrite Hctx. reflexivity.
Defined.

(** X19. "Connect Engine" writes a key only if it starts with "gsk_":
    any other input leaves the disk and the session state as they are and
    does not restart the page.  With the prefix and no [.env] file yet,
    the file is created with the single line [GROQ_API_KEY=<key>] and the
    page restarts.  The session state is never changed. *)
Theorem connect_engine_checks_the_prefix (D : Dotenv) (api_key : option pystr)
    (input_key : pystr) (w : world) :
  (startswith input_key (py "gsk_") = false →
   connect_engine D api_key input_key w = (Ok (), w)) ∧
  (from_option truthy false api_key = false →
   startswith input_key (py "gsk_") = true →
   nodes (disk w) !! ENV_PATH = None → creatable (disk w) = true →
   connect_engine D api_key input_key w
   = (Raise rerun_signal,
      set_disk (set_node ENV_PATH
                  (File true true (py "GROQ_API_KEY=" ++ input_key ++ newline)) (disk w)) w)) ∧
  state (connect_engine D api_key input_key w).2 = state w.
Proof.
  unfold connect_engine. split; [|split].
  - intros ->. by destruct (from_option truthy false api_key).
  - intros -> -> Hnone Hcreate.
    unfold on_disk, save_api_key, os_path_exists, open_w, write. run.
    rewrite bool_decide_is_Some_lookup, Hnone. simpl. rewrite Hnone, Hcreate. simpl.
    rewrite lookup_insert_eq. simpl. by rewrite set_node_twice.
  - destruct (from_option truthy false api_key); [reflexivity|].
    destruct (startswith input_key (py "gsk_")); [|reflexivity].
    unfold on_disk. run.
    destruct (save_api_key D input_key ENV_PATH (disk w)) as [[[]|e] fs]; reflexivity.
Qed.

Lemma connect_engine_checks_the_prefix_witness :
  connect_engine Tour.dotenv None (py "sk-wrong") Sample.busy_world = (Ok (), Sample.busy_world) ∧
  nodes (disk (connect_engine Tour.dotenv None (py "gsk_abc") Sample.busy_world).2) !! ENV_PATH
  = Some (File true true (py "GROQ_API_KEY=gsk_abc" ++ newline)).
Proof.
  destruct (connect_engine_checks_the_prefix Tour.dotenv None (py "sk-wrong")
              Sample.busy_world) as (Hbad & _).
  destruct (connect_engine_checks_the_prefix Tour.dotenv None (py "gsk_abc")
              Sample.busy_world) as (_ & Hgood & _).
  split.
  - apply Hbad. reflexivity.
  - rewrite Hgood; reflexivity.
Defined.

(** ** A conversation from its opening to the list *)

(** X20. A conversation opened with "New Conversation" is not in the list
    of past conversations as long as it has no message.  Its first prompt
    gives it its name, leaves it the active one and brings it into the
    list, whether the turn succeeds or fails. *)
Theorem new_conversation_then_first_prompt (J : JSON) (P : Provider) (uuid4 : N)
    (now key prompt now_time now_full : pystr) (w : world) :
  active_chat_is_empty (history (state w)) = false →
  let sid := uuid_str uuid4 in
  let w1 := (new_conversation J uuid4 now w).2 in
  let w2 := (submit_prompt J P sid key prompt now_time now_full w1).2 in
  (∃ s1, sessions (history (state w1)) !! sid = Some s1 ∧
         history_sessions [(sid, s1)] = []) ∧
  (∃ s2, sessions (history (state w2)) !! sid = Some s2 ∧
         s_name s2 = auto_name prompt ∧
         history_sessions [(sid, s2)] = [(sid, s2)]) ∧
  active_id (history (state w2)) = Some sid.
Proof.
  intros Hbusy sid w1 w2. subst sid w1 w2.
  rewrite new_conversation_eq, Hbusy. cbv zeta. cbn [snd].
  set (w1 := set_disk _ _).
  assert (Hs1 : sessions (history (state w1)) !! uuid_str uuid4 = Some (new_session now))
    by apply lookup_insert_eq.
  split.
  - exists (new_session now). split; [exact Hs1|]. reflexivity.
  - rewrite (submit_prompt_eq J P _ key prompt now_time now_full w1 _ Hs1). cbv zeta.
    destruct (chat P prompt _ key _ _).1 as [[response sources]|e]; simpl;
      (split; [|reflexivity]); eexists; (split; [apply lookup_insert_eq|]);
      (split; [reflexivity|]); unfold history_sessions; rewrite filter_cons_True;
      [reflexivity|simpl; discriminate|reflexivity|simpl; discriminate].
Qed.

Lemma new_conversation_then_first_prompt_witness :
  ∃ s2, sessions (history (state
          (submit_prompt RefJson.json Ref.provider (uuid_str 7) Ref.valid_key Sample.question
             (py "10:01") (py "2024-05-01 10:01:07")
             (new_conversation RefJson.json 7 (py "2024-05-01 10:00:00")
                Sample.busy_world).2).2)) !! uuid_str 7 = Some s2 ∧
        s_name s2 = py "Should I learn Rust or Go for ...".
Proof.
  destruct (new_conversation_then_first_prompt RefJson.json Ref.provider 7
              (py "2024-05-01 10:00:00") Ref.valid_key Sample.question (py "10:01")
              (py "2024-05-01 10:01:07") Sample.busy_world)
    as (_ & (s2 & Hs2 & Hname & _) & _).
  - reflexivity.
  - exists s2. split; [exact Hs2|]. rewrite Hname. reflexivity.
Defined.

(** ** The buttons of the list *)








Lemma auto_name_then_display_name_witness :
  display_name (auto_name Sample.question) = py "Should I learn Rust or...".
Proof.
  rewrite (proj2 (proj2 (proj2 (auto_name_then_display_name Sample.question)))).
  reflexivity.
Defined.
